(** * matplotlib_context_writer: the visualizers of [implementations.py]

    A shallow embedding of the three visualizer families (frames saved to a
    directory, frames encoded to a video, live preview) together with the
    parts of Python and of the operating system they call: f-string
    formatting, [pathlib] joins, float division,
    [tempfile.TemporaryDirectory], [os.system], [Figure.savefig], [plt.pause]
    and [input].

    Methods are functions in a state-and-exception monad over the receiver
    object and the outside world.  The world holds the disk, the figures the
    caller draws on, the lines waiting on standard input, and a log of every
    call that leaves the interpreter.  A call ends in one of three ways: it
    returns, it raises, or it never comes back. *)

From Stdlib Require Import ZArith QArith Ascii String DecimalString DecimalNat.
From Stdlib Require Import SpecFloat.
From stdpp Require Import gmap strings list.

#[global] Set Warnings "-abstract-large-number".

Open Scope string_scope.
Open Scope list_scope.

(* ================================================================== *)
(** * Text: f-string formatting and string comparison *)
(* ================================================================== *)

Module Text.

(** [str(n)] for a non-negative [int]. *)
Definition str_nat (n : nat) : string :=
  NilEmpty.string_of_uint (Nat.to_uint n).

(** [str(z)] for any [int]; this is what [f"{z}"] produces. *)
Definition str_int (z : Z) : string :=
  NilZero.string_of_int (Z.to_int z).

Fixpoint zeros (k : nat) : string :=
  match k with
  | O => ""
  | S k' => String "0"%char (zeros k')
  end.

(** [s.zfill(width)] for a string without sign. *)
Definition zfill (width : nat) (s : string) : string :=
  zeros (width - String.length s) +:+ s.

(** [f"{n:04d}"] for a non-negative [int]: decimal digits, padded with
    zeros on the left up to four characters, never truncated. *)
Definition format_04d (n : nat) : string := zfill 4 (str_nat n).

(** Reading a run of decimal digits back. *)
Definition read_nat (s : string) : option nat :=
  Nat.of_uint <$> NilEmpty.uint_of_string s.

(** Python's [<] on [str]: lexicographic on code units. *)
Definition str_lt (a b : string) : Prop := String.compare a b = Lt.

Definition is_slash (c : ascii) : bool := Ascii.eqb c "/"%char.

Fixpoint slash_free (s : string) : bool :=
  match s with
  | "" => true
  | String c r => negb (is_slash c) && slash_free r
  end.

Fixpoint percent_free (s : string) : bool :=
  match s with
  | "" => true
  | String c r => negb (Ascii.eqb c "%"%char) && percent_free r
  end.

(** No character of [s] is the NUL byte. *)
Fixpoint nul_free (s : string) : bool :=
  match s with
  | "" => true
  | String c r => negb (Ascii.eqb c "000"%char) && nul_free r
  end.

(** [s.split("/")]. *)
Fixpoint split_slash (s : string) : list string :=
  match s with
  | "" => [""]
  | String c r =>
      if is_slash c then "" :: split_slash r
      else match split_slash r with
           | h :: t => String c h :: t
           | [] => [String c ""]
           end
  end.

(** [sep.join(l)]. *)
Fixpoint join (sep : string) (l : list string) : string :=
  match l with
  | [] => ""
  | [x] => x
  | x :: r => x +:+ sep +:+ join sep r
  end.

(** [s.split(" ")] keeping only the non-empty words, as a shell does. *)
Fixpoint words_aux (cur : string) (s : string) : list string :=
  match s with
  | "" => if String.eqb cur "" then [] else [cur]
  | String c r =>
      if Ascii.eqb c " "%char
      then (if String.eqb cur "" then words_aux "" r
            else cur :: words_aux "" r)
      else words_aux (cur +:+ String c "") r
  end.

Definition words (s : string) : list string := words_aux "" s.

(** What follows ["04d"] at the head of [r], if [r] starts with it. *)
Definition after_04d (r : string) : option string :=
  match r with
  | String a (String b (String c r')) =>
      if Ascii.eqb a "0"%char && Ascii.eqb b "4"%char && Ascii.eqb c "d"%char
      then Some r' else None
  | _ => None
  end.

(** Replace the first ["%04d"] of a file-name pattern by the formatted
    number, the way an image-sequence reader expands its pattern. *)
Fixpoint expand_04d (pattern : string) (n : nat) : string :=
  match pattern with
  | "" => ""
  | String c r =>
      match (if Ascii.eqb c "%"%char then after_04d r else None) with
      | Some r' => format_04d n +:+ r'
      | None => String c (expand_04d r n)
      end
  end.

(** The tail of a frame name: the formatted index and the extension. *)
Definition tail_of (i : nat) : string := format_04d i +:+ ".png".

(** Checks, by running the formatter, that the tails of the indices
    [0 .. n] come in strictly ascending order. *)
Definition tails_ascend_upto (n : nat) : bool :=
  forallb (fun i => match String.compare (tail_of i) (tail_of (S i)) with
                    | Lt => true
                    | _ => false
                    end) (seq 0 n).

End Text.

(* ================================================================== *)
(** * pathlib: pure POSIX paths *)
(* ================================================================== *)

Module pathlib.
Import Text.

(** A [PurePosixPath]: the root (empty, one slash or two slashes) and
    the components below it. *)
Record Path := mkPath { root : string; parts : list string }.

(** One leading slash is the root; exactly two are kept as they are;
    three or more collapse to one. *)
Definition parse_root (s : string) : string :=
  match s with
  | String a r =>
      if is_slash a then
        match r with
        | String b r' =>
            if is_slash b then
              match r' with
              | String c _ => if is_slash c then "/" else "//"
              | "" => "//"
              end
            else "/"
        | "" => "/"
        end
      else ""
  | "" => ""
  end.

Definition keep_part (x : string) : bool :=
  negb (String.eqb x "") && negb (String.eqb x ".").

Definition parse_parts (s : string) : list string :=
  filter (fun x => keep_part x = true) (split_slash s).

(** [Path(s)]. *)
Definition of_str (s : string) : Path :=
  {| root := parse_root s; parts := parse_parts s |}.

(** [p / s]: a rooted right operand replaces the left one. *)
Definition truediv (p : Path) (s : string) : Path :=
  let q := of_str s in
  if String.eqb (root q) ""
  then {| root := root p; parts := parts p ++ parts q |}
  else q.

(** [str(p)]. *)
Definition str (p : Path) : string :=
  match parts p with
  | [] => if String.eqb (root p) "" then "." else root p
  | ps => root p +:+ join "/" ps
  end.

(** [p.parent] *)
Definition parent (p : Path) : Path :=
  {| root := root p; parts := removelast (parts p) |}.

(** [p.name] *)
Definition name (p : Path) : string := default "" (last (parts p)).

End pathlib.

(* ================================================================== *)
(** * The outside world *)
(* ================================================================== *)

(** A [Figure] object is known by its identity; what is drawn on it is
    part of the world, because the caller redraws between two frames. *)
Definition Figure := nat.

Inductive File :=
| Png (picture : nat) (dpi : Z)
| Mp4 (framerate : string) (frames : list (nat * Z)).

Record Disk := mkDisk {
  files : gmap string File;
  dirs  : gset string
}.

(** Calls that leave the interpreter, in the order they are made. *)
Inductive Event :=
| Savefig (path : string) (dpi : Z)
| System (cmd : string)
| Mkdtemp (dir : string)
| Rmtree (dir : string)
| Pause (interval : spec_float)
| ShowFigure
| Stdout (text : string)
| Stdin.

Record World := mkWorld {
  disk      : Disk;
  canvas    : gmap Figure nat;         (* picture currently on each figure *)
  denied    : gset string;             (* paths the system refuses to write *)
  tmpdir    : string;                  (* [tempfile.gettempdir()] *)
  tmp_names : list string;             (* the random candidate names to come *)
  shell     : string -> Disk -> Z * Disk;  (* what a command line does *)
  managed   : bool;                    (* pyplot has an active figure manager *)
  stdin     : list string;             (* the lines left on standard input *)
  log       : list Event
}.

Definition set_disk (d : Disk) (w : World) : World :=
  mkWorld d (canvas w) (denied w) (tmpdir w) (tmp_names w) (shell w)
          (managed w) (stdin w) (log w).

Definition set_canvas (c : gmap Figure nat) (w : World) : World :=
  mkWorld (disk w) c (denied w) (tmpdir w) (tmp_names w) (shell w)
          (managed w) (stdin w) (log w).

Definition set_tmp_names (l : list string) (w : World) : World :=
  mkWorld (disk w) (canvas w) (denied w) (tmpdir w) l (shell w)
          (managed w) (stdin w) (log w).

Definition set_stdin (l : list string) (w : World) : World :=
  mkWorld (disk w) (canvas w) (denied w) (tmpdir w) (tmp_names w) (shell w)
          (managed w) l (log w).

Definition emit (e : Event) (w : World) : World :=
  mkWorld (disk w) (canvas w) (denied w) (tmpdir w) (tmp_names w) (shell w)
          (managed w) (stdin w) (log w ++ [e]).

Definition write_file (path : string) (f : File) (d : Disk) : Disk :=
  mkDisk (<[path := f]> (files d)) (dirs d).

Definition picture (fig : Figure) (w : World) : nat :=
  default 0%nat (canvas w !! fig).

(** Exceptions that can reach the caller. *)
Inductive Exn :=
| RuntimeError (msg : string)
| FileNotFoundError (path : string)
| PermissionError (path : string)
| FileExistsError (msg : string)
| ZeroDivisionError
| TypeError (msg : string)
| ValueError
| OverflowError
| EOFError
| CallerError (tag : nat).

(** How a call ends: it returns a value, it raises, or it never returns
    ([Hang]: a wait that nothing ends). *)
Inductive Res (A : Type) :=
| Ok (a : A)
| Raise (e : Exn)
| Hang.
Arguments Ok {A} a.
Arguments Raise {A} e.
Arguments Hang {A}.

(** State and exceptions: a raised exception keeps the state reached, and
    nothing runs after a call that does not return. *)
Definition M (S A : Type) : Type := S -> Res A * S.

#[global] Instance M_ret {S} : MRet (M S) := fun A a s => (Ok a, s).

#[global] Instance M_bind {S} : MBind (M S) := fun A B f m s =>
  match m s with
  | (Ok a, s') => f a s'
  | (Raise e, s') => (Raise e, s')
  | (Hang, s') => (Hang, s')
  end.

Definition raise {S A} (e : Exn) : M S A := fun s => (Raise e, s).

(** A method runs on its receiver and the world. *)
Definition Method (Self A : Type) : Type := M (Self * World) A.

Definition get_self {Self} : Method Self Self := fun st => (Ok (fst st), st).

Definition set_self {Self} (x : Self) : Method Self unit :=
  fun st => (Ok tt, (x, snd st)).

(** A call into the world from inside a method. *)
Definition io {Self A} (c : M World A) : Method Self A := fun st =>
  match c (snd st) with
  | (r, w') => (r, (fst st, w'))
  end.

(* ================================================================== *)
(** * The operating system and the libraries called *)
(* ================================================================== *)

Module os.
Import Text.

(** The directory part of a path name: [None] when there is no slash
    (a name in the working directory). *)
Fixpoint dirname (p : string) : option string :=
  match p with
  | "" => None
  | String c r =>
      match dirname r with
      | Some d => Some (String c d)
      | None => if is_slash c then Some "" else None
      end
  end.

Fixpoint all_slashes (s : string) : bool :=
  match s with
  | "" => true
  | String c r => is_slash c && all_slashes r
  end.

Definition parent_exists (d : Disk) (p : string) : bool :=
  match dirname p with
  | None => true
  | Some dir => all_slashes dir || bool_decide (dir ∈ dirs d)
  end.

Definition exists_ (d : Disk) (p : string) : bool :=
  bool_decide (p ∈ dirs d) || bool_decide (is_Some (files d !! p)).

(** [p] lies below directory [dir]. *)
Definition under (dir p : string) : bool := String.prefix (dir +:+ "/") p.

(** [shutil.rmtree(dir)]: the directory and all below it disappear. *)
Definition rmtree (dir : string) (d : Disk) : Disk :=
  mkDisk (filter (fun kv => under dir (fst kv) = false) (files d))
         (filter (fun x => x ≠ dir ∧ under dir x = false) (dirs d)).

(** [os.system(cmd)]: a command with a NUL byte in it is refused with
    [ValueError] before any shell is started; otherwise the shell runs
    the command line and its wait status comes back as an integer,
    whatever the command did. *)
Definition system (cmd : string) : M World Z := fun w =>
  if nul_free cmd then
    match shell w cmd (disk w) with
    | (status, d') => (Ok status, set_disk d' (emit (System cmd) w))
    end
  else (Raise ValueError, w).

End os.

Module tempfile.
Import Text.

(** The loop of [mkdtemp]: take candidate names until one is free. *)
Fixpoint pick (dir : string) (names : list string) (d : Disk)
  : option (string * list string) :=
  match names with
  | [] => None
  | n :: rest =>
      let file := dir +:+ "/" +:+ "tmp" +:+ n in
      if os.exists_ d file then pick dir rest d else Some (file, rest)
  end.

Definition mkdtemp : M World string := fun w =>
  match pick (tmpdir w) (tmp_names w) (disk w) with
  | None =>
      (Raise (FileExistsError "No usable temporary directory name found"),
       set_tmp_names [] w)
  | Some (file, rest) =>
      (Ok file,
       emit (Mkdtemp file)
         (set_disk (mkDisk (files (disk w)) ({[file]} ∪ dirs (disk w)))
            (set_tmp_names rest w)))
  end.

Record TemporaryDirectory := mkTemporaryDirectory { name : string }.

(** [TemporaryDirectory()] *)
Definition __init__ : M World TemporaryDirectory :=
  file ← mkdtemp; mret (mkTemporaryDirectory file).

Definition __enter__ (self : TemporaryDirectory) : M World string :=
  mret (name self).

Definition cleanup (self : TemporaryDirectory) : M World unit := fun w =>
  (Ok tt, set_disk (os.rmtree (name self) (disk w))
            (emit (Rmtree (name self)) w)).

(** [__exit__] ignores the exception it is told about and returns
    [None]. *)
Definition __exit__ (self : TemporaryDirectory) (exc : option Exn)
  : M World unit := cleanup self.

End tempfile.

Module matplotlib.

(** [fig.savefig(path, dpi=dpi)]: the call is logged; it fails when the
    directory is missing or the system refuses the path, and leaves the
    disk as it was; otherwise the file holds the current picture. *)
Definition savefig (fig : Figure) (path : string) (dpi : Z) : M World unit :=
  fun w =>
    let w1 := emit (Savefig path dpi) w in
    if negb (os.parent_exists (disk w) path)
    then (Raise (FileNotFoundError path), w1)
    else if bool_decide (path ∈ denied w)
    then (Raise (PermissionError path), w1)
    else (Ok tt,
          set_disk (write_file path (Png (picture fig w) dpi) (disk w)) w1).

(** [plt.pause(interval)].  With an active figure manager the event
    loop of its canvas runs for [interval] seconds; it treats an interval
    that is not positive as no limit at all, and an infinite one never
    ends either.  Without a manager the call is [time.sleep(interval)],
    which returns after a non-negative finite time and refuses every
    other number. *)
Definition pause (interval : spec_float) : M World unit := fun w =>
  let w1 := emit (Pause interval) w in
  match interval with
  | S754_finite false _ _ => (Ok tt, w1)
  | S754_zero _ => if managed w then (Hang, w1) else (Ok tt, w1)
  | S754_finite true _ _ =>
      if managed w then (Hang, w1) else (Raise ValueError, w1)
  | S754_infinity true =>
      if managed w then (Hang, w1) else (Raise ValueError, w1)
  | S754_infinity false =>
      if managed w then (Hang, w1) else (Raise OverflowError, w1)
  | S754_nan => if managed w then (Ok tt, w1) else (Raise ValueError, w1)
  end.

(** [plt.show(block=False)] *)
Definition show : M World unit := fun w => (Ok tt, emit ShowFigure w).

End matplotlib.

Module builtins.

Definition print (text : string) : M World unit := fun w =>
  (Ok tt, emit (Stdout text) w).

(** [input()]: the next line of standard input, [EOFError] when there
    is none left. *)
Definition input : M World string := fun w =>
  match stdin w with
  | line :: rest => (Ok line, set_stdin rest (emit Stdin w))
  | [] => (Raise EOFError, emit Stdin w)
  end.

(** A Python [float] is a binary64 number: 53 bits of precision. *)
Definition prec : Z := 53.
Definition emax : Z := 1024.

(** An [int] as a number with an exponent of zero, all digits kept. *)
Definition of_int (z : Z) : spec_float :=
  match z with
  | Z0 => S754_zero false
  | Zpos p => S754_finite false p 0
  | Zneg p => S754_finite true p 0
  end.

(** The [float] nearest to the quotient [a / b] of two finite numbers
    given by their exact values (ties to even; an infinity when the
    quotient is too large for a [float]). *)
Definition float_quotient (a b : Q) : spec_float :=
  SFdiv prec emax (of_int (Qnum a * Zpos (Qden b)))
                  (of_int (Zpos (Qden a) * Qnum b)).

(** [1 / b] for a finite [int] or [float] [b], given by its exact
    value. *)
Definition one_over {S} (b : Q) : M S spec_float :=
  if Qeq_bool b 0 then raise ZeroDivisionError
  else mret (float_quotient 1 b).

(** The literal [0.001]: the [float] nearest to one thousandth. *)
Definition literal_0_001 : spec_float :=
  S754_finite false 4611686018427388 (-62).

End builtins.

(* ================================================================== *)
(** * interface: the three protocols *)
(* ================================================================== *)

(** The exception a [with] statement hands to [__exit__], if any. *)
Definition ExcInfo := option Exn.

(** The handle used inside the [with] block. *)
Class EnteredVisualizer (T : Type) := {
  step : Method T unit
}.

(** The context manager; [__exit__] returns nothing, so an exception of
    the block is never suppressed. *)
Class EnterVisualizer (T : Type) := {
  Entered : Type;
  __enter__ : Method T Entered;
  __exit__ : ExcInfo -> Method T unit
}.

(** The configuration object. *)
Class Visualizer (V : Type) := {
  Enter : Type;
  enter : Figure -> Method V Enter
}.

(** [with mgr as entered: body(entered)].  The state of the manager and
    of the handle after the statement are both kept: Python leaves the
    name [entered] bound after the block.  [__exit__] runs when the block
    has returned or raised. *)
Definition with_ {T} `{EnterVisualizer T} (body : Method Entered unit)
  : Method T (option Entered) := fun st =>
  match __enter__ st with
  | (Raise e, st1) => (Raise e, st1)
  | (Ok entered, (mgr, w1)) =>
      match body (entered, w1) with
      | (Ok _, (entered', w2)) =>
          match __exit__ None (mgr, w2) with
          | (Ok _, st3) => (Ok (Some entered'), st3)
          | (Raise e', st3) => (Raise e', st3)
          | (Hang, st3) => (Hang, st3)
          end
      | (Raise e, (entered', w2)) =>
          match __exit__ (Some e) (mgr, w2) with
          | (Ok _, st3) => (Raise e, st3)
          | (Raise e', st3) => (Raise e', st3)
          | (Hang, st3) => (Hang, st3)
          end
      | (Hang, (_, w2)) => (Hang, (mgr, w2))
      end
  | (Hang, st1) => (Hang, st1)
  end.

(* ================================================================== *)
(** * implementations *)
(* ================================================================== *)

Module _SaveInDirEnteredVisualizer.
Import Text.

Record t := mk {
  fig : Figure;
  save_dir : pathlib.Path;
  index : nat;
  prefix : string;
  dpi : Z
}.

Definition __init__ (fig : Figure) (save_dir : pathlib.Path)
    (prefix : string) (dpi : Z) : t :=
  {| fig := fig; save_dir := save_dir; index := 0;
     prefix := prefix; dpi := dpi |}.

(** The defaults of the constructor. *)
Definition default_prefix : string := "image".
Definition default_dpi : Z := 400.

Definition set_index (i : nat) (self : t) : t :=
  mk (fig self) (save_dir self) i (prefix self) (dpi self).

(** [f"{self.prefix}{self.index:04d}.png"] *)
Definition file_name (prefix : string) (index : nat) : string :=
  prefix +:+ format_04d index +:+ ".png".

(** [str(self.save_dir / f"{self.prefix}{self.index:04d}.png")] *)
Definition frame_path (self : t) (index : nat) : string :=
  pathlib.str (pathlib.truediv (save_dir self) (file_name (prefix self) index)).

Definition step : Method t unit :=
  self ← get_self;
  io (matplotlib.savefig (fig self) (frame_path self (index self)) (dpi self));;
  self ← get_self;
  set_self (set_index (index self + 1) self).

End _SaveInDirEnteredVisualizer.

#[global] Instance SaveInDir_entered
  : EnteredVisualizer _SaveInDirEnteredVisualizer.t :=
  {| step := _SaveInDirEnteredVisualizer.step |}.

Module _SaveToVidEnterVisualizer.
Import Text.

Record t := mk {
  figure : Figure;
  video_path : pathlib.Path;
  temp_path : option string;
  temp_path_context_manager : option tempfile.TemporaryDirectory;
  prefix : string;
  fps : Z;
  temp_video_name : string;
  dpi : Z
}.

Definition __init__ (fig : Figure) (video_path : pathlib.Path)
    (fps : Z) (dpi : Z) : t :=
  {| figure := fig; video_path := video_path;
     temp_path := None; temp_path_context_manager := None;
     prefix := "image_"; fps := fps;
     temp_video_name := "video"; dpi := dpi |}.

(** The defaults of the constructor. *)
Definition default_fps : Z := 30.
Definition default_dpi : Z := 400.

Definition set_temp_path_context_manager
    (m : option tempfile.TemporaryDirectory) (self : t) : t :=
  mk (figure self) (video_path self) (temp_path self) m
     (prefix self) (fps self) (temp_video_name self) (dpi self).

Definition set_temp_path (p : option string) (self : t) : t :=
  mk (figure self) (video_path self) p (temp_path_context_manager self)
     (prefix self) (fps self) (temp_video_name self) (dpi self).

(** [f"{self.temp_path}"]: the directory name, or [None] printed. *)
Definition fmt_temp_path (self : t) : string :=
  default "None" (temp_path self).

(** The pattern given to the encoder after [-i]. *)
Definition input_pattern (self : t) : string :=
  fmt_temp_path self +:+ "/" +:+ prefix self +:+ "%04d.png".

(** The file the encoder writes, inside the temporary directory. *)
Definition temp_video (self : t) : string :=
  fmt_temp_path self +:+ "/" +:+ temp_video_name self +:+ ".mp4".

Definition ffmpeg_command (self : t) : string :=
  "ffmpeg -framerate " +:+ str_int (fps self) +:+ " -i " +:+
  input_pattern self +:+ " -c:v libx264 -pix_fmt yuv420p " +:+
  temp_video self.

Definition mv_command (self : t) : string :=
  "mv " +:+ temp_video self +:+ " " +:+ pathlib.str (video_path self).

Definition __enter__ : Method t _SaveInDirEnteredVisualizer.t :=
  tm ← io tempfile.__init__;
  self ← get_self;
  set_self (set_temp_path_context_manager (Some tm) self);;
  path ← io (tempfile.__enter__ tm);
  self ← get_self;
  set_self (set_temp_path (Some path) self);;
  self ← get_self;
  match temp_path self with
  | None => raise (TypeError "expected str, bytes or os.PathLike object")
  | Some p =>
      mret (_SaveInDirEnteredVisualizer.__init__
              (figure self) (pathlib.of_str p) (prefix self) (dpi self))
  end.

Definition __exit__ (exc : ExcInfo) : Method t unit :=
  self ← get_self;
  match temp_path_context_manager self with
  | None => raise (RuntimeError "Temporary directory context manager is None")
  | Some tm =>
      io (os.system (ffmpeg_command self));;
      io (os.system (mv_command self));;
      io (tempfile.__exit__ tm exc)
  end.

End _SaveToVidEnterVisualizer.

#[global] Instance SaveToVid_enter
  : EnterVisualizer _SaveToVidEnterVisualizer.t :=
  {| Entered := _SaveInDirEnteredVisualizer.t;
     __enter__ := _SaveToVidEnterVisualizer.__enter__;
     __exit__ := _SaveToVidEnterVisualizer.__exit__ |}.

Module VideoVisualizer.

Record t := mk {
  video_path : pathlib.Path;
  fps : Z;
  dpi : Z
}.

Definition __init__ (video_path : pathlib.Path) (fps dpi : Z) : t :=
  {| video_path := video_path; fps := fps; dpi := dpi |}.

Definition default_fps : Z := 30.
Definition default_dpi : Z := 400.

Definition enter (fig : Figure) : Method t _SaveToVidEnterVisualizer.t :=
  self ← get_self;
  mret (_SaveToVidEnterVisualizer.__init__
          fig (video_path self) (fps self) (dpi self)).

End VideoVisualizer.

#[global] Instance Video_visualizer : Visualizer VideoVisualizer.t :=
  {| Enter := _SaveToVidEnterVisualizer.t;
     enter := VideoVisualizer.enter |}.

Module _ShowEnteredVisualizer.

Record t := mk { fig : Figure }.

Definition __init__ (fig : Figure) : t := {| fig := fig |}.

Definition step : Method t unit :=
  io matplotlib.show;;
  io (matplotlib.pause builtins.literal_0_001);;
  io (builtins.print "Press any key to continue...");;
  io builtins.input;;
  mret tt.

End _ShowEnteredVisualizer.

#[global] Instance Show_entered : EnteredVisualizer _ShowEnteredVisualizer.t :=
  {| step := _ShowEnteredVisualizer.step |}.

Module _ShowEnterVisualizer.

Record t := mk { figure : Figure }.

Definition __init__ (fig : Figure) : t := {| figure := fig |}.

Definition __enter__ : Method t _ShowEnteredVisualizer.t :=
  self ← get_self;
  mret (_ShowEnteredVisualizer.__init__ (figure self)).

Definition __exit__ (exc : ExcInfo) : Method t unit := mret tt.

End _ShowEnterVisualizer.

#[global] Instance Show_enter : EnterVisualizer _ShowEnterVisualizer.t :=
  {| Entered := _ShowEnteredVisualizer.t;
     __enter__ := _ShowEnterVisualizer.__enter__;
     __exit__ := _ShowEnterVisualizer.__exit__ |}.

Module ShowVisualizer.

Record t := mk { }.

Definition __init__ : t := mk.

Definition enter (fig : Figure) : Method t _ShowEnterVisualizer.t :=
  mret (_ShowEnterVisualizer.__init__ fig).

End ShowVisualizer.

#[global] Instance Show_visualizer : Visualizer ShowVisualizer.t :=
  {| Enter := _ShowEnterVisualizer.t; enter := ShowVisualizer.enter |}.

Module _LiveVideoEnteredVisualizer.

Record t := mk { fig : Figure; fps : Q }.

Definition __init__ (fig : Figure) (fps : Q) : t :=
  {| fig := fig; fps := fps |}.

Definition step : Method t unit :=
  self ← get_self;
  interval ← builtins.one_over (fps self);
  io (matplotlib.pause interval).

End _LiveVideoEnteredVisualizer.

#[global] Instance Live_entered
  : EnteredVisualizer _LiveVideoEnteredVisualizer.t :=
  {| step := _LiveVideoEnteredVisualizer.step |}.

Module _LiveVideoEnterVisualizer.

Record t := mk { figure : Figure; fps : Q }.

Definition __init__ (fig : Figure) (fps : Q) : t :=
  {| figure := fig; fps := fps |}.

Definition __enter__ : Method t _LiveVideoEnteredVisualizer.t :=
  self ← get_self;
  mret (_LiveVideoEnteredVisualizer.__init__ (figure self) (fps self)).

Definition __exit__ (exc : ExcInfo) : Method t unit := mret tt.

End _LiveVideoEnterVisualizer.

#[global] Instance Live_enter : EnterVisualizer _LiveVideoEnterVisualizer.t :=
  {| Entered := _LiveVideoEnteredVisualizer.t;
     __enter__ := _LiveVideoEnterVisualizer.__enter__;
     __exit__ := _LiveVideoEnterVisualizer.__exit__ |}.

Module LiveVideoVisualizer.

Record t := mk { fps : Q }.

Definition __init__ (fps : Q) : t := {| fps := fps |}.

Definition default_fps : Q := 30.

Definition enter (fig : Figure) : Method t _LiveVideoEnterVisualizer.t :=
  self ← get_self;
  mret (_LiveVideoEnterVisualizer.__init__ fig (fps self)).

End LiveVideoVisualizer.

#[global] Instance Live_visualizer : Visualizer LiveVideoVisualizer.t :=
  {| Enter := _LiveVideoEnterVisualizer.t; enter := LiveVideoVisualizer.enter |}.

(* ================================================================== *)
(** * The caller's side *)
(* ================================================================== *)

(** The caller redraws a figure. *)
Definition draw (fig : Figure) (pic : nat) : M World unit := fun w =>
  (Ok tt, set_canvas (<[fig := pic]> (canvas w)) w).

(** [n] calls of [step], one after the other. *)
Fixpoint steps {T} `{EnteredVisualizer T} (n : nat) : Method T unit :=
  match n with
  | O => mret tt
  | S k => step;; steps k
  end.

(** The loop of the demos: redraw, then [step], for each picture. *)
Fixpoint record {T} `{EnteredVisualizer T} (fig : Figure) (pics : list nat)
  : Method T unit :=
  match pics with
  | [] => mret tt
  | p :: rest => io (draw fig p);; step;; record fig rest
  end.

(** [with visualizer.enter(fig) as entered: body(entered)] *)
Definition session {V} `{Visualizer V} `{!EnterVisualizer Enter}
    (fig : Figure) (body : Method Entered unit) : Method V (option Entered) :=
  fun st =>
    match enter fig st with
    | (Raise e, st1) => (Raise e, st1)
    | (Hang, st1) => (Hang, st1)
    | (Ok mgr, (v, w1)) =>
        match with_ body (mgr, w1) with
        | (r, (_, w2)) => (r, (v, w2))
        end
    end.

(** The paths a directory handle writes for the indices [k, k+1, ...]. *)
Definition frame_paths (s : _SaveInDirEnteredVisualizer.t) (k n : nat)
  : list string :=
  map (_SaveInDirEnteredVisualizer.frame_path s) (seq k n).

(** A directory name in the form [mkdtemp] returns it: already normal for
    [pathlib], and not the root itself. *)
Definition normal_dir (d : string) : Prop :=
  pathlib.str (pathlib.of_str d) = d ∧ pathlib.parts (pathlib.of_str d) ≠ [].

(** The temporary-file settings of a world as [tempfile] keeps them: the
    directory is in normal form, and neither it nor the candidate names
    contain a percent sign or, for the names, a slash. *)
Definition tmp_ok (w : World) : Prop :=
  normal_dir (tmpdir w) ∧
  Text.percent_free (tmpdir w) = true ∧
  Forall (fun n => Text.slash_free n = true ∧ Text.percent_free n = true)
         (tmp_names w).

(** Nothing is left of directory [dir]. *)
Definition released (dir : string) (d : Disk) : Prop :=
  (dir ∉ dirs d) ∧
  (∀ p, os.under dir p = true → files d !! p = None ∧ (p ∉ dirs d)).

(* ================================================================== *)
(** * A reference shell, for running the code on examples *)
(* ================================================================== *)

Module Shell.
Import Text.

(** The frames an image-sequence reader finds: numbers [i], [i+1], ...
    for as long as the expanded pattern names a picture. *)
Fixpoint collect (d : Disk) (pattern : string) (i fuel : nat)
  : list (nat * Z) :=
  match fuel with
  | O => []
  | S fuel' =>
      match files d !! expand_04d pattern i with
      | Some (Png pic dpi) => (pic, dpi) :: collect d pattern (S i) fuel'
      | _ => []
      end
  end.

Definition ffmpeg (args : list string) (d : Disk) : Z * Disk :=
  match args with
  | ["-framerate"; rate; "-i"; pattern; "-c:v"; "libx264";
     "-pix_fmt"; "yuv420p"; out] =>
      match collect d pattern 0 (size (files d)) with
      | [] => (256, d)
      | frames => (0, write_file out (Mp4 rate frames) d)
      end
  | _ => (256, d)
  end%Z.

Definition mv (args : list string) (d : Disk) : Z * Disk :=
  match args with
  | [src; dst] =>
      match files d !! src with
      | Some f => (0, mkDisk (<[dst := f]> (delete src (files d))) (dirs d))
      | None => (256, d)
      end
  | _ => (256, d)
  end%Z.

(** [installed] says whether [ffmpeg] is on the search path; a command
    that is not found ends the shell with code 127. *)
Definition run (installed : bool) (cmd : string) (d : Disk) : Z * Disk :=
  match words cmd with
  | "ffmpeg" :: args => if installed then ffmpeg args d else (32512, d)
  | "mv" :: args => mv args d
  | _ => (32512, d)
  end%Z.

End Shell.

Module Fixtures.

Definition disk0 : Disk := mkDisk ∅ (list_to_set ["/tmp"; "frames"]).

Definition world0 (installed : bool) : World :=
  mkWorld disk0 ∅ ∅ "/tmp" ["k3x9q_ab"; "zz81mm0p"; "a0a0a0a0"]
          (Shell.run installed) true [] [].

(** As [world0], but the directory ["frames"] is missing. *)
Definition world_nodir : World :=
  mkWorld (mkDisk ∅ (list_to_set ["/tmp"])) ∅ ∅ "/tmp" ["k3x9q_ab"]
          (Shell.run true) true [] [].

Definition fig0 : Figure := 1%nat.

Definition dir_handle : _SaveInDirEnteredVisualizer.t :=
  _SaveInDirEnteredVisualizer.__init__ fig0 (pathlib.of_str "frames")
    _SaveInDirEnteredVisualizer.default_prefix
    _SaveInDirEnteredVisualizer.default_dpi.

(** A handle whose prefix is a rooted path. *)
Definition rooted_handle : _SaveInDirEnteredVisualizer.t :=
  _SaveInDirEnteredVisualizer.__init__ fig0 (pathlib.of_str "frames")
    "/image" 400.

(** [VideoVisualizer(video_path, fps=2, dpi=50)] of the demo. *)
Definition video : VideoVisualizer.t :=
  VideoVisualizer.__init__ (pathlib.of_str "demo_video.mp4") 2 50.

Definition vid_enter : _SaveToVidEnterVisualizer.t :=
  _SaveToVidEnterVisualizer.__init__ fig0 (pathlib.of_str "demo_video.mp4") 2 50.

Definition live_enter : _LiveVideoEnterVisualizer.t :=
  _LiveVideoEnterVisualizer.__init__ fig0 2.

End Fixtures.

(* ================================================================== *)
(** * Properties the theorems speak about *)
(* ================================================================== *)

(** The system lets [path] be written in world [w]. *)
Definition writable (w : World) (path : string) : Prop :=
  os.parent_exists (disk w) path = true ∧ (path ∉ denied w).

(** The frame of index [i] is a file of the handle's directory itself,
    named by prefix, four-digit index and extension. *)
Definition frame_in_directory (s : _SaveInDirEnteredVisualizer.t) (i : nat)
  : Prop :=
  let p := pathlib.truediv (_SaveInDirEnteredVisualizer.save_dir s)
             (_SaveInDirEnteredVisualizer.file_name
                (_SaveInDirEnteredVisualizer.prefix s) i) in
  pathlib.parent p = _SaveInDirEnteredVisualizer.save_dir s ∧
  pathlib.name p =
    _SaveInDirEnteredVisualizer.prefix s +:+ Text.format_04d i +:+ ".png".

(** After a failing [step], the next [step] that succeeds writes under
    another name than the one the failed call was writing. *)
Definition failed_name_not_reused : Prop :=
  ∀ (s s1 s3 : _SaveInDirEnteredVisualizer.t) (w w1 w2 w3 : World) (e : Exn),
    step (s, w) = (Raise e, (s1, w1)) →
    step (s1, w2) = (Ok tt, (s3, w3)) →
    _SaveInDirEnteredVisualizer.frame_path s1
      (_SaveInDirEnteredVisualizer.index s1)
    ≠ _SaveInDirEnteredVisualizer.frame_path s
        (_SaveInDirEnteredVisualizer.index s).



(** The pattern the encoder is given, expanded at any index, is the path
    the handle of the session writes for that index. *)
Definition pattern_names_frames : Prop :=
  ∀ (v : VideoVisualizer.t) (f : Figure)
    (m0 m1 : _SaveToVidEnterVisualizer.t) (h : _SaveInDirEnteredVisualizer.t)
    (w w1 : World) (i : nat),
    enter f (v, w) = (Ok m0, (v, w)) →
    _SaveToVidEnterVisualizer.__enter__ (m0, w) = (Ok h, (m1, w1)) →
    Text.expand_04d (_SaveToVidEnterVisualizer.input_pattern m1) i
      = _SaveInDirEnteredVisualizer.frame_path h i.



(** A handle used after its scope has ended raises and touches nothing. *)
Definition step_after_exit_raises (T : Type) `{EnterVisualizer T}
    `{!EnteredVisualizer Entered} : Prop :=
  ∀ (m m1 m2 : T) (h h' : Entered) (w w1 w2 w3 : World) (exc : ExcInfo)
    (r : Res unit),
    __enter__ (m, w) = (Ok h, (m1, w1)) →
    __exit__ exc (m1, w1) = (Ok tt, (m2, w2)) →
    step (h, w2) = (r, (h', w3)) →
    (∃ e, r = Raise e) ∧ w3 = w2.

(* ================================================================== *)
(** * Further checks and examples *)
(* ================================================================== *)

Module Checks.

(** The first character of [s] is [c]. *)
Definition head_is (c : ascii) (s : string) : bool :=
  match s with
  | String a _ => Ascii.eqb a c
  | "" => false
  end.

(** The first character of [s] comes after [c]. *)
Definition head_above (c : ascii) (s : string) : bool :=
  match s with
  | String a _ => (N_of_ascii c <? N_of_ascii a)%N
  | "" => false
  end.

(** Runs the formatter on [lo, lo+1, ..., lo+n-1] and tests each
    result. *)
Definition formats_all (P : string -> bool) (lo n : nat) : bool :=
  forallb (fun i => P (Text.format_04d i)) (seq lo n).

End Checks.

Module MoreFixtures.

(** As [Fixtures.world0], but the system refuses the third frame. *)
Definition world_denied : World :=
  mkWorld Fixtures.disk0 ∅ {[ "frames/image0002.png" ]} "/tmp"
          ["k3x9q_ab"] (Shell.run true) true [] [].

(** A world in which [mkdtemp] finds no free name. *)
Definition world_no_names : World :=
  mkWorld Fixtures.disk0 ∅ ∅ "/tmp" [] (Shell.run true) true [] [].

(** A world whose temporary directory has a percent sign in its name. *)
Definition world_percent : World :=
  mkWorld (mkDisk ∅ (list_to_set ["/t%04dmp"])) ∅ ∅ "/t%04dmp"
          ["k3x9q_ab"] (Shell.run true) true [] [].




End MoreFixtures.

(* ================================================================== *)
(** * Theorems *)
(* ================================================================== *)

(* ================================================================== *)

Section TextFacts.
Import Text.

Lemma append_cons (x : ascii) (a b : string) :
  String x a +:+ b = String x (a +:+ b).
Proof. reflexivity. Qed.

Lemma append_nil_l (a : string) : "" +:+ a = a.
Proof. reflexivity. Qed.

Lemma append_assoc (a b c : string) : (a +:+ b) +:+ c = a +:+ (b +:+ c).
Proof.
  induction a as [|x a IH]; [done|]. by rewrite !append_cons, IH.
Qed.

Lemma append_nil_r (a : string) : a +:+ "" = a.
Proof. induction a as [|x a IH]; [done|]. by rewrite append_cons, IH. Qed.

Lemma length_append (a b : string) :
  String.length (a +:+ b) = (String.length a + String.length b)%nat.
Proof.
  induction a as [|x a IH]; [done|]. rewrite append_cons. simpl. by rewrite IH.
Qed.

Lemma append_inv_head (p a b : string) : p +:+ a = p +:+ b → a = b.
Proof.
  induction p as [|x p IH]; [done|]. rewrite !append_cons. intros [= H]. auto.
Qed.

(** ** Reading a formatted index back *)

Lemma uint_of_string_zeros (k : nat) (s : string) (d : Decimal.uint) :
  NilEmpty.uint_of_string s = Some d →
  ∃ d', NilEmpty.uint_of_string (zeros k +:+ s) = Some d'
        ∧ Nat.of_uint d' = Nat.of_uint d.
Proof.
  intros Hs. induction k as [|k [d' [Hd' Hv]]].
  - by exists d.
  - exists (Decimal.D0 d'). simpl zeros. rewrite append_cons. simpl.
    rewrite Hd'. split; [done|]. rewrite <- Hv. reflexivity.
Qed.

Lemma read_nat_format_04d (n : nat) : read_nat (format_04d n) = Some n.
Proof.
  unfold read_nat, format_04d, zfill, str_nat.
  destruct (uint_of_string_zeros
              (4 - String.length (NilEmpty.string_of_uint (Nat.to_uint n)))
              _ _ (NilEmpty.usu (Nat.to_uint n))) as [d' [-> Hv]].
  simpl. by rewrite Hv, DecimalNat.Unsigned.of_to.
Qed.

Lemma format_04d_inj (i j : nat) : format_04d i = format_04d j → i = j.
Proof.
  intros H. pose proof (read_nat_format_04d i) as Hi.
  rewrite H, read_nat_format_04d in Hi. by injection Hi.
Qed.

(** ** Lexicographic order *)

Lemma ascii_compare_refl (c : ascii) : Ascii.compare c c = Eq.
Proof. unfold Ascii.compare. apply N.compare_refl. Qed.

Lemma ascii_compare_lt_trans (a b c : ascii) :
  Ascii.compare a b = Lt → Ascii.compare b c = Lt → Ascii.compare a c = Lt.
Proof.
  unfold Ascii.compare. rewrite !N.compare_lt_iff. apply N.lt_trans.
Qed.

Lemma str_lt_trans (a b c : string) : str_lt a b → str_lt b c → str_lt a c.
Proof.
  unfold str_lt. revert b c.
  induction a as [|x a IH]; intros [|y b] [|z c]; simpl; try done.
  destruct (Ascii.compare x y) eqn:Hxy; try done.
  - apply Ascii.compare_eq_iff in Hxy as ->.
    destruct (Ascii.compare y z); try done. apply IH.
  - destruct (Ascii.compare y z) eqn:Hyz; try done.
    + apply Ascii.compare_eq_iff in Hyz as <-. by rewrite Hxy.
    + by rewrite (ascii_compare_lt_trans _ _ _ Hxy Hyz).
Qed.

Lemma compare_append_head (p a b : string) :
  String.compare (p +:+ a) (p +:+ b) = String.compare a b.
Proof.
  induction p as [|x p IH]; [done|]. rewrite !append_cons. simpl.
  by rewrite ascii_compare_refl.
Qed.

Lemma str_lt_irrefl (a : string) : ¬ str_lt a a.
Proof.
  unfold str_lt. induction a as [|x a IH]; simpl; [done|].
  by rewrite ascii_compare_refl.
Qed.

Lemma tail_of_succ_lt (n i : nat) :
  tails_ascend_upto n = true → (i < n)%nat →
  str_lt (tail_of i) (tail_of (S i)).
Proof.
  unfold tails_ascend_upto. rewrite forallb_forall. intros H Hi.
  assert (In i (seq 0 n)) as Hin by (apply in_seq; lia).
  specialize (H i Hin). unfold str_lt.
  destruct (String.compare (tail_of i) (tail_of (S i))); congruence.
Qed.

Lemma tail_of_lt_upto (n i j : nat) :
  tails_ascend_upto n = true → (i < j)%nat → (j <= n)%nat →
  str_lt (tail_of i) (tail_of j).
Proof.
  intros Hn. induction j as [|j IH]; [lia|]. intros Hij Hj.
  destruct (decide (i = j)) as [->|Hne].
  - apply (tail_of_succ_lt n); [done | lia].
  - eapply str_lt_trans; [apply IH; lia | apply (tail_of_succ_lt n); [done | lia]].
Qed.

Lemma tails_ascend_9999 : tails_ascend_upto 9999 = true.
Proof. vm_compute. reflexivity. Qed.

Lemma tail_of_lt (i j : nat) :
  (i < j)%nat → (j <= 9999)%nat → str_lt (tail_of i) (tail_of j).
Proof. exact (tail_of_lt_upto 9999 i j tails_ascend_9999). Qed.

End TextFacts.

Section PathFacts.
Import Text pathlib.

Lemma slash_free_append (a b : string) :
  slash_free (a +:+ b) = slash_free a && slash_free b.
Proof.
  induction a as [|x a IH]; [done|]. rewrite append_cons. simpl.
  rewrite IH. by rewrite andb_assoc.
Qed.

Lemma slash_free_zeros (k : nat) : slash_free (zeros k) = true.
Proof. induction k as [|k IH]; [done|]. simpl. exact IH. Qed.

Lemma slash_free_digits (d : Decimal.uint) :
  slash_free (NilEmpty.string_of_uint d) = true.
Proof. induction d; simpl; auto. Qed.

Lemma slash_free_tail_of (i : nat) : slash_free (tail_of i) = true.
Proof.
  unfold tail_of, format_04d, zfill, str_nat.
  rewrite !slash_free_append, slash_free_zeros, slash_free_digits.
  reflexivity.
Qed.

Lemma length_tail_of (i : nat) : (2 <= String.length (tail_of i))%nat.
Proof. unfold tail_of. rewrite length_append. simpl. lia. Qed.

Lemma split_slash_free (t : string) :
  slash_free t = true → split_slash t = [t].
Proof.
  induction t as [|c t IH]; [done|]. simpl.
  destruct (is_slash c); [done|]. simpl. intros H. by rewrite (IH H).
Qed.

(** Appending text without a slash only lengthens the last piece. *)
Lemma split_slash_append (s : string) :
  ∃ cs L, split_slash s = cs ++ [L] ∧
          ∀ t, slash_free t = true → split_slash (s +:+ t) = cs ++ [L +:+ t].
Proof.
  induction s as [|c s (cs & L & Hs & Ht)].
  - exists [], "". split; [done|]. intros t H. by apply split_slash_free.
  - destruct (is_slash c) eqn:Hc.
    + exists ("" :: cs), L. split.
      * simpl. by rewrite Hc, Hs.
      * intros t H. rewrite append_cons. simpl. by rewrite Hc, (Ht t H).
    + destruct cs as [|h cs].
      * exists [], (String c L). split.
        -- simpl. by rewrite Hc, Hs.
        -- intros t H. rewrite !append_cons. simpl. by rewrite Hc, (Ht t H).
      * exists (String c h :: cs), L. split.
        -- simpl. by rewrite Hc, Hs.
        -- intros t H. rewrite append_cons. simpl. by rewrite Hc, (Ht t H).
Qed.

Lemma keep_part_long (x : string) :
  (2 <= String.length x)%nat → keep_part x = true.
Proof.
  destruct x as [|a [|b x]]; simpl; try lia. intros _.
  unfold keep_part. simpl. by destruct (Ascii.eqb a ".").
Qed.

Lemma head_not_slash (t : string) :
  slash_free t = true → (1 <= String.length t)%nat →
  ∃ c t', t = String c t' ∧ is_slash c = false.
Proof.
  destruct t as [|c t]; simpl; [lia|]. intros H _. exists c, t.
  split; [done|]. by destruct (is_slash c).
Qed.

(** The root of [pfx +:+ t] is decided by [pfx] alone. *)
Lemma parse_root_append (pfx : string) :
  ∃ r, ∀ t, slash_free t = true → (1 <= String.length t)%nat →
            parse_root (pfx +:+ t) = r.
Proof.
  destruct pfx as [|a [|b [|c p]]].
  - exists "". intros t H1 H2.
    destruct (head_not_slash t H1 H2) as (x & t' & -> & Hx).
    simpl. by rewrite Hx.
  - exists (if is_slash a then "/" else ""). intros t H1 H2.
    destruct (head_not_slash t H1 H2) as (x & t' & -> & Hx).
    rewrite append_cons. simpl. by rewrite Hx.
  - exists (if is_slash a then (if is_slash b then "//" else "/") else "").
    intros t H1 H2.
    destruct (head_not_slash t H1 H2) as (x & t' & -> & Hx).
    rewrite !append_cons. simpl. by rewrite Hx.
  - exists (parse_root (String a (String b (String c "")))).
    intros t _ _. by rewrite !append_cons.
Qed.

Lemma join_snoc (xs : list string) :
  ∃ b, ∀ y, join "/" (xs ++ [y]) = b +:+ y.
Proof.
  induction xs as [|x xs [b Hb]].
  - by exists "".
  - exists (x +:+ "/" +:+ b). intros y.
    change ((x :: xs) ++ [y]) with (x :: (xs ++ [y])).
    destruct (xs ++ [y]) as [|z zs] eqn:E.
    + by destruct xs.
    + change (join "/" (x :: z :: zs)) with (x +:+ "/" +:+ join "/" (z :: zs)).
      rewrite <- E, Hb. by rewrite !append_assoc.
Qed.

Lemma join_snoc_nonempty (xs : list string) (y : string) :
  xs ≠ [] → join "/" (xs ++ [y]) = join "/" xs +:+ "/" +:+ y.
Proof.
  induction xs as [|x xs IH]; [done|]. intros _.
  destruct xs as [|z zs]; [done|].
  change (join "/" ((x :: z :: zs) ++ [y]))
    with (x +:+ "/" +:+ join "/" ((z :: zs) ++ [y])).
  rewrite IH by done.
  change (join "/" (x :: z :: zs)) with (x +:+ "/" +:+ join "/" (z :: zs)).
  by rewrite !append_assoc.
Qed.

Lemma str_snoc (r : string) (xs : list string) :
  ∃ b, ∀ y, str (mkPath r (xs ++ [y])) = b +:+ y.
Proof.
  destruct (join_snoc xs) as [b Hb]. exists (r +:+ b). intros y.
  pose proof (Hb y) as Hy. unfold str. cbn [parts root].
  destruct (xs ++ [y]) eqn:E; [by destruct xs|].
  by rewrite Hy, append_assoc.
Qed.

(** A name without a slash is a path of one component. *)
Lemma of_str_single (x : string) :
  slash_free x = true → (2 <= String.length x)%nat →
  of_str x = mkPath "" [x].
Proof.
  intros H1 H2. unfold of_str, parse_parts.
  rewrite (split_slash_free x H1).
  destruct (head_not_slash x H1 ltac:(lia)) as (c & t & -> & Hc).
  f_equal.
  - simpl. by rewrite Hc.
  - rewrite filter_cons, filter_nil. rewrite decide_True; [done|].
    apply keep_part_long. exact H2.
Qed.

Lemma truediv_single (p : Path) (x : string) :
  slash_free x = true → (2 <= String.length x)%nat →
  truediv p x = mkPath (root p) (parts p ++ [x]).
Proof.
  intros H1 H2. unfold truediv. by rewrite (of_str_single x H1 H2).
Qed.

(** Whatever the directory and the prefix, the written path is a fixed
    text followed by the tail. *)
Lemma truediv_shape (sd : Path) (pfx : string) :
  ∃ base, ∀ t, slash_free t = true → (2 <= String.length t)%nat →
               str (truediv sd (pfx +:+ t)) = base +:+ t.
Proof.
  destruct (split_slash_append pfx) as (cs & L & _ & Hsplit).
  destruct (parse_root_append pfx) as [r Hr].
  set (ks := filter (fun x => keep_part x = true) cs).
  destruct (String.eqb r "") eqn:Er.
  - destruct (str_snoc (root sd) (parts sd ++ ks)) as [b Hb].
    exists (b +:+ L). intros t H1 H2.
    unfold truediv, of_str. simpl.
    rewrite (Hr t H1 ltac:(lia)), Er.
    unfold parse_parts. rewrite (Hsplit t H1), filter_app.
    rewrite filter_cons, filter_nil, decide_True.
    2:{ apply keep_part_long. rewrite length_append. lia. }
    fold ks. rewrite app_assoc, Hb. by rewrite append_assoc.
  - destruct (str_snoc r ks) as [b Hb].
    exists (b +:+ L). intros t H1 H2.
    unfold truediv, of_str. simpl.
    rewrite (Hr t H1 ltac:(lia)), Er.
    unfold parse_parts. rewrite (Hsplit t H1), filter_app.
    rewrite filter_cons, filter_nil, decide_True.
    2:{ apply keep_part_long. rewrite length_append. lia. }
    fold ks. rewrite Hb. by rewrite append_assoc.
Qed.

(** Below a directory in normal form the join is plain concatenation. *)
Lemma str_truediv_normal (d x : string) :
  normal_dir d → slash_free x = true → (2 <= String.length x)%nat →
  str (truediv (of_str d) x) = d +:+ "/" +:+ x.
Proof.
  intros [Hstr Hparts] H1 H2. rewrite (truediv_single _ x H1 H2).
  destruct (of_str d) as [r ps]. unfold str in *. cbn [parts root] in *.
  destruct ps as [|a ps]; [done|].
  pose proof (join_snoc_nonempty (a :: ps) x ltac:(done)) as J.
  rewrite <- Hstr, append_assoc. f_equal. exact J.
Qed.

End PathFacts.

Section DirectorySession.
Import Text pathlib.

Local Abbreviation t := _SaveInDirEnteredVisualizer.t.
Local Abbreviation frame_path := _SaveInDirEnteredVisualizer.frame_path.
Local Abbreviation file_name := _SaveInDirEnteredVisualizer.file_name.
Local Abbreviation set_index := _SaveInDirEnteredVisualizer.set_index.
Local Abbreviation index := _SaveInDirEnteredVisualizer.index.
Local Abbreviation fig := _SaveInDirEnteredVisualizer.fig.
Local Abbreviation dpi := _SaveInDirEnteredVisualizer.dpi.
Local Abbreviation save_dir := _SaveInDirEnteredVisualizer.save_dir.
Local Abbreviation prefix := _SaveInDirEnteredVisualizer.prefix.

Lemma append_inv_tail (a b s : string) : a +:+ s = b +:+ s → a = b.
Proof.
  intros H.
  assert (String.length a = String.length b) as Hl.
  { apply (f_equal String.length) in H. rewrite !length_append in H. lia. }
  revert b H Hl. induction a as [|x a IH]; intros [|y b]; simpl; try done.
  rewrite !append_cons. intros [= -> H] [= Hl]. f_equal. by apply IH.
Qed.

Lemma file_name_tail (pfx : string) (i : nat) :
  file_name pfx i = pfx +:+ tail_of i.
Proof. reflexivity. Qed.

(** The path of a frame is a text that depends on the handle only,
    followed by the formatted index and the extension. *)
Lemma frame_path_shape (s : t) :
  ∃ base, ∀ i, frame_path s i = base +:+ tail_of i.
Proof.
  destruct (truediv_shape (save_dir s) (prefix s)) as [base Hb].
  exists base. intros i. unfold frame_path. rewrite file_name_tail.
  apply Hb; [apply slash_free_tail_of | apply length_tail_of].
Qed.

Lemma frame_path_inj (s : t) (i j : nat) :
  frame_path s i = frame_path s j → i = j.
Proof.
  destruct (frame_path_shape s) as [base Hb]. rewrite !Hb.
  intros H%append_inv_head. unfold tail_of in H.
  by apply append_inv_tail, format_04d_inj in H.
Qed.

Lemma frame_path_set_index (s : t) (k i : nat) :
  frame_path (set_index k s) i = frame_path s i.
Proof. reflexivity. Qed.

Lemma frame_paths_set_index (s : t) (j k n : nat) :
  frame_paths (set_index j s) k n = frame_paths s k n.
Proof. reflexivity. Qed.

Lemma frame_paths_cons (s : t) (k n : nat) :
  frame_paths s k (S n) = frame_path s k :: frame_paths s (S k) n.
Proof. reflexivity. Qed.

Lemma frame_paths_NoDup (s : t) (k n : nat) : NoDup (frame_paths s k n).
Proof.
  unfold frame_paths. change (NoDup (frame_path s <$> seq k n)).
  apply NoDup_fmap_2; [|apply NoDup_seq].
  intros i j. apply frame_path_inj.
Qed.

Lemma elem_of_frame_paths (s : t) (k n : nat) (p : string) :
  p ∈ frame_paths s k n ↔ ∃ i, (k <= i < k + n)%nat ∧ p = frame_path s i.
Proof.
  unfold frame_paths. rewrite list_elem_of_In, in_map_iff. split.
  - intros (i & <- & Hi%in_seq). exists i. split; [lia | done].
  - intros (i & Hi & ->). exists i. split; [done | apply in_seq; lia].
Qed.

(** What one call of [step] does, case by case. *)
Lemma step_eq (s : t) (w : World) :
  step (s, w) =
    let p := frame_path s (index s) in
    let w1 := emit (Savefig p (dpi s)) w in
    if negb (os.parent_exists (disk w) p)
    then (Raise (FileNotFoundError p), (s, w1))
    else if bool_decide (p ∈ denied w)
    then (Raise (PermissionError p), (s, w1))
    else (Ok tt,
          (set_index (index s + 1) s,
           set_disk (write_file p (Png (picture (fig s) w) (dpi s)) (disk w))
                    w1)).
Proof.
  cbv beta delta [step SaveInDir_entered _SaveInDirEnteredVisualizer.step
                  mbind M_bind get_self set_self io matplotlib.savefig]; simpl.
  destruct (os.parent_exists (disk w) (frame_path s (index s))); simpl; [|done].
  by destruct (bool_decide (frame_path s (index s) ∈ denied w)).
Qed.

Lemma step_ok_inv (s s1 : t) (w w1 : World) :
  step (s, w) = (Ok tt, (s1, w1)) →
  s1 = set_index (index s + 1) s ∧
  w1 = set_disk (write_file (frame_path s (index s))
                   (Png (picture (fig s) w) (dpi s)) (disk w))
         (emit (Savefig (frame_path s (index s)) (dpi s)) w).
Proof.
  rewrite step_eq. cbv zeta.
  destruct (negb _); [done|]. destruct (bool_decide _); [done|].
  by intros [= <- <-].
Qed.

Lemma step_raise_inv (s s1 : t) (w w1 : World) (e : Exn) :
  step (s, w) = (Raise e, (s1, w1)) →
  s1 = s ∧ w1 = emit (Savefig (frame_path s (index s)) (dpi s)) w.
Proof.
  rewrite step_eq. cbv zeta.
  destruct (negb _); [by intros [= <- <- <-]|].
  destruct (bool_decide _); [by intros [= <- <- <-]|done].
Qed.

Lemma steps_S {T} `{EnteredVisualizer T} (n : nat) (st : T * World) :
  steps (S n) st =
    match step st with
    | (Ok _, st1) => steps n st1
    | (Raise e, st1) => (Raise e, st1)
    | (Hang, st1) => (Hang, st1)
    end.
Proof. reflexivity. Qed.

(** [n] calls that all return: where the handle and the world end up. *)
Lemma steps_ok_inv (n : nat) (s s' : t) (w w' : World) :
  steps n (s, w) = (Ok tt, (s', w')) →
  s' = set_index (index s + n) s ∧
  log w' = log w ++ map (fun i => Savefig (frame_path s i) (dpi s))
                        (seq (index s) n) ∧
  canvas w' = canvas w ∧
  dirs (disk w') = dirs (disk w) ∧
  (∀ p, files (disk w') !! p =
          if decide (p ∈ frame_paths s (index s) n)
          then Some (Png (picture (fig s) w) (dpi s))
          else files (disk w) !! p).
Proof.
  revert s w. induction n as [|n IH]; intros s w.
  - intros [= <- <-]. rewrite Nat.add_0_r. split; [by destruct s|].
    split; [by rewrite app_nil_r|]. split; [done|]. split; [done|].
    intros p. rewrite decide_False; [done|]. unfold frame_paths. simpl.
    apply not_elem_of_nil.
  - rewrite steps_S. destruct (step (s, w)) as [[[]|e|] [s1 w1]] eqn:Hstep;
      [|done|done].
    apply step_ok_inv in Hstep as [-> ->]. intros Hrest.
    apply IH in Hrest as (-> & Hlog & Hcanvas & Hdirs & Hfiles).
    cbn [_SaveInDirEnteredVisualizer.index _SaveInDirEnteredVisualizer.set_index
         _SaveInDirEnteredVisualizer.fig _SaveInDirEnteredVisualizer.dpi] in *.
    split.
    { unfold _SaveInDirEnteredVisualizer.set_index. cbn. f_equal. lia. }
    split.
    { rewrite Hlog. cbn [log emit set_disk]. rewrite <- app_assoc.
      f_equal. simpl. f_equal. by rewrite Nat.add_1_r. }
    split; [by rewrite Hcanvas|]. split; [by rewrite Hdirs|].
    intros p. rewrite Hfiles, Nat.add_1_r, frame_paths_set_index.
    rewrite (frame_paths_cons s (index s) n).
    change (picture (fig s) (set_disk ?d (emit ?e w)))
      with (picture (fig s) w).
    destruct (decide (p ∈ frame_paths s (S (index s)) n)) as [Hin|Hnin].
    + rewrite decide_True; [done|]. by apply list_elem_of_further.
    + cbn [files disk set_disk write_file].
      destruct (decide (p = frame_path s (index s))) as [->|Hne].
      * rewrite lookup_insert_eq, decide_True; [done|]. apply list_elem_of_here.
      * rewrite lookup_insert_ne by done. rewrite decide_False; [done|].
        intros [?|?]%elem_of_cons; done.
Qed.

End DirectorySession.

Section DirectoryClaims.
Import Text pathlib.

Local Abbreviation t := _SaveInDirEnteredVisualizer.t.
Local Abbreviation frame_path := _SaveInDirEnteredVisualizer.frame_path.
Local Abbreviation file_name := _SaveInDirEnteredVisualizer.file_name.
Local Abbreviation set_index := _SaveInDirEnteredVisualizer.set_index.
Local Abbreviation index := _SaveInDirEnteredVisualizer.index.
Local Abbreviation fig := _SaveInDirEnteredVisualizer.fig.
Local Abbreviation dpi := _SaveInDirEnteredVisualizer.dpi.
Local Abbreviation save_dir := _SaveInDirEnteredVisualizer.save_dir.
Local Abbreviation prefix := _SaveInDirEnteredVisualizer.prefix.

Lemma writable_after_write (w : World) (p q : string) (f : File) (e : Event) :
  writable w q → writable (set_disk (write_file p f (disk w)) (emit e w)) q.
Proof. intros [H1 H2]. by split. Qed.

(** Calls whose paths are all writable all return. *)
Lemma steps_return (n : nat) (s : t) (w : World) :
  (∀ i, (index s <= i < index s + n)%nat → writable w (frame_path s i)) →
  ∃ s' w', steps n (s, w) = (Ok tt, (s', w')).
Proof.
  revert s w. induction n as [|n IH]; intros s w Hw; [by eexists _, _|].
  rewrite steps_S, step_eq. cbv zeta.
  destruct (Hw (index s) ltac:(lia)) as [-> Hden]. simpl negb. cbv iota.
  rewrite bool_decide_eq_false_2 by done.
  apply IH. intros i Hi. cbn in Hi.
  apply writable_after_write, Hw. lia.
Qed.

(** C1. In a directory session, [N] calls of [step] whose writes the
    system accepts all return and create exactly [N] image files: the
    calls write, in this order, the names of the indices [0, 1, ...,
    N-1], these names are pairwise different, each of them holds a
    picture afterwards, no other file appears, and the index of the
    handle ends at [N].  Each single call that returns has written the
    current picture under the name of the current index and has moved
    the index on by exactly one. *)
Theorem steps_create_indexed_files
    (N : nat) (f : Figure) (sd : Path) (pfx : string) (d : Z) (w : World) :
  (∀ i, (i < N)%nat →
        writable w (frame_path
                      (_SaveInDirEnteredVisualizer.__init__ f sd pfx d) i)) →
  (∃ s' w',
    steps N (_SaveInDirEnteredVisualizer.__init__ f sd pfx d, w)
      = (Ok tt, (s', w')) ∧
    index s' = N ∧
    log w' = log w ++
      map (fun i => Savefig (pathlib.str (truediv sd (file_name pfx i))) d)
          (seq 0 N) ∧
    NoDup (map (fun i => pathlib.str (truediv sd (file_name pfx i)))
               (seq 0 N)) ∧
    (∀ i, (i < N)%nat →
          files (disk w') !! pathlib.str (truediv sd (file_name pfx i))
            = Some (Png (picture f w) d)) ∧
    (∀ p, is_Some (files (disk w') !! p) ↔
          is_Some (files (disk w) !! p) ∨
          ∃ i, (i < N)%nat ∧ p = pathlib.str (truediv sd (file_name pfx i)))) ∧
  (∀ (s s2 : t) (w1 w2 : World),
      step (s, w1) = (Ok tt, (s2, w2)) →
      index s2 = S (index s) ∧
      log w2 = log w1 ++ [Savefig (frame_path s (index s)) (dpi s)] ∧
      files (disk w2) !! frame_path s (index s)
        = Some (Png (picture (fig s) w1) (dpi s))).
Proof.
  intros Hw. split; [|intros s s2 w1 w2 [-> ->]%step_ok_inv;
                      split; [cbn; lia|]; split; [done|];
                      cbn [files disk set_disk write_file];
                      apply lookup_insert_eq].
  set (s0 := _SaveInDirEnteredVisualizer.__init__ f sd pfx d).
  destruct (steps_return N s0 w) as (s' & w' & Hrun).
  { intros i Hi. apply Hw. cbn in Hi. lia. }
  exists s', w'. split; [done|].
  apply steps_ok_inv in Hrun as (-> & Hlog & _ & _ & Hfiles).
  split; [done|]. split; [exact Hlog|].
  split; [exact (frame_paths_NoDup s0 0 N)|].
  split.
  - intros i Hi. rewrite Hfiles, decide_True; [done|].
    apply elem_of_frame_paths. exists i. split; [cbn; lia | done].
  - intros p. rewrite Hfiles.
    destruct (decide (p ∈ frame_paths s0 (index s0) N)) as [Hin|Hnin].
    + split; [|by eauto]. intros _. right.
      apply elem_of_frame_paths in Hin as (i & Hi & ->).
      exists i. split; [cbn in Hi; lia | done].
    + split; [by left|]. intros [?|(i & Hi & ->)]; [done|].
      exfalso. apply Hnin, elem_of_frame_paths.
      exists i. split; [cbn; lia | done].
Qed.

Lemma steps_create_indexed_files_witness :
  (∀ i, (i < 3)%nat →
        writable (Fixtures.world0 true)
          (frame_path Fixtures.dir_handle i)) ∧
  ∃ s' w',
    steps 3 (Fixtures.dir_handle, Fixtures.world0 true) = (Ok tt, (s', w')) ∧
    index s' = 3%nat ∧
    log w' = [Savefig "frames/image0000.png" 400;
              Savefig "frames/image0001.png" 400;
              Savefig "frames/image0002.png" 400].
Proof.
  assert (∀ i, (i < 3)%nat →
               writable (Fixtures.world0 true)
                 (frame_path Fixtures.dir_handle i)) as Hw.
  { intros i Hi. split; [|apply not_elem_of_empty].
    destruct i as [|[|[|i]]]; [vm_compute; reflexivity ..|lia]. }
  split; [exact Hw|].
  destruct (steps_create_indexed_files 3 Fixtures.fig0 (of_str "frames")
              "image" 400 (Fixtures.world0 true) Hw)
    as ((s' & w' & Hrun & Hidx & Hlog & _) & _).
  exists s', w'. split; [exact Hrun|]. split; [exact Hidx|]. exact Hlog.
Defined.

End DirectoryClaims.

Section DirectoryClaims2.
Import Text pathlib.

Local Abbreviation t := _SaveInDirEnteredVisualizer.t.
Local Abbreviation frame_path := _SaveInDirEnteredVisualizer.frame_path.
Local Abbreviation file_name := _SaveInDirEnteredVisualizer.file_name.
Local Abbreviation set_index := _SaveInDirEnteredVisualizer.set_index.
Local Abbreviation index := _SaveInDirEnteredVisualizer.index.
Local Abbreviation fig := _SaveInDirEnteredVisualizer.fig.
Local Abbreviation dpi := _SaveInDirEnteredVisualizer.dpi.
Local Abbreviation save_dir := _SaveInDirEnteredVisualizer.save_dir.
Local Abbreviation prefix := _SaveInDirEnteredVisualizer.prefix.

(** C4, as stated, fails.  With the directory missing the first call
    raises and leaves the index at 0; once the directory is there, the
    next call succeeds and writes the very name of the failed frame. *)
Lemma failed_step_name_is_reused :
  step (Fixtures.dir_handle, Fixtures.world_nodir)
    = (Raise (FileNotFoundError "frames/image0000.png"),
       (Fixtures.dir_handle,
        emit (Savefig "frames/image0000.png" 400) Fixtures.world_nodir)) ∧
  (∃ s3 w3,
      step (Fixtures.dir_handle, Fixtures.world0 true) = (Ok tt, (s3, w3)) ∧
      log w3 = [Savefig "frames/image0000.png" 400] ∧
      files (disk w3) !! "frames/image0000.png" = Some (Png 0 400)) ∧
  ¬ failed_name_not_reused.
Proof.
  assert (step (Fixtures.dir_handle, Fixtures.world_nodir)
          = (Raise (FileNotFoundError "frames/image0000.png"),
             (Fixtures.dir_handle,
              emit (Savefig "frames/image0000.png" 400) Fixtures.world_nodir)))
    as Hfail by (vm_compute; reflexivity).
  destruct (step (Fixtures.dir_handle, Fixtures.world0 true))
    as [r [s3 w3]] eqn:Hok.
  assert (r = Ok tt) as -> by (apply (f_equal fst) in Hok; vm_compute in Hok; congruence).
  split; [exact Hfail|]. split.
  - exists s3, w3. split; [done|].
    apply step_ok_inv in Hok as [-> ->]. split; [reflexivity|].
    vm_compute. reflexivity.
  - intros Hclaim. by apply (Hclaim _ _ _ _ _ _ _ _ Hfail Hok).
Qed.

(** C4, amended.  A failing [step] propagates its exception at once:
    nothing is written, the handle is left exactly as it was, so the
    index is neither decreased nor advanced, and a loop of calls stops
    there.  The next call that succeeds therefore writes the name of the
    failed frame and moves the index to the one after it. *)
Theorem failed_step_keeps_index
    (s s1 : t) (w w1 : World) (e : Exn) :
  step (s, w) = (Raise e, (s1, w1)) →
  s1 = s ∧
  index s1 = index s ∧
  disk w1 = disk w ∧
  log w1 = log w ++ [Savefig (frame_path s (index s)) (dpi s)] ∧
  (∀ n, steps (S n) (s, w) = (Raise e, (s1, w1))) ∧
  (∀ w2 s3 w3,
      step (s1, w2) = (Ok tt, (s3, w3)) →
      index s3 = S (index s) ∧
      log w3 = log w2 ++ [Savefig (frame_path s (index s)) (dpi s)] ∧
      files (disk w3) !! frame_path s (index s)
        = Some (Png (picture (fig s) w2) (dpi s))).
Proof.
  intros Hfail. pose proof (step_raise_inv _ _ _ _ _ Hfail) as [-> ->].
  split; [done|]. split; [done|]. split; [done|]. split; [done|]. split.
  - intros n. by rewrite steps_S, Hfail.
  - intros w2 s3 w3 [-> ->]%step_ok_inv.
    split; [cbn; lia|]. split; [done|].
    cbn [files disk set_disk write_file]. apply lookup_insert_eq.
Qed.

Lemma failed_step_keeps_index_witness :
  step (Fixtures.dir_handle, Fixtures.world_nodir)
    = (Raise (FileNotFoundError "frames/image0000.png"),
       (Fixtures.dir_handle,
        emit (Savefig "frames/image0000.png" 400) Fixtures.world_nodir)) ∧
  index Fixtures.dir_handle = 0%nat ∧
  disk (emit (Savefig "frames/image0000.png" 400) Fixtures.world_nodir)
    = disk Fixtures.world_nodir.
Proof.
  assert (step (Fixtures.dir_handle, Fixtures.world_nodir)
          = (Raise (FileNotFoundError "frames/image0000.png"),
             (Fixtures.dir_handle,
              emit (Savefig "frames/image0000.png" 400) Fixtures.world_nodir)))
    as Hfail by (vm_compute; reflexivity).
  destruct (failed_step_keeps_index _ _ _ _ _ Hfail) as (_ & Hi & Hd & _).
  split; [exact Hfail|]. split; [exact Hi | exact Hd].
Defined.

(** ** Names and their order *)

Lemma parent_snoc (p : Path) (x : string) :
  parent (mkPath (root p) (parts p ++ [x])) = p.
Proof.
  destruct p as [r ps]. unfold parent. cbn [root parts].
  by rewrite removelast_last.
Qed.

Lemma name_snoc (r : string) (ps : list string) (x : string) :
  name (mkPath r (ps ++ [x])) = x.
Proof. unfold name. cbn [parts]. by rewrite last_snoc. Qed.

Lemma slash_free_file_name (pfx : string) (i : nat) :
  slash_free pfx = true → slash_free (file_name pfx i) = true.
Proof.
  intros H. rewrite file_name_tail, slash_free_append, H.
  apply slash_free_tail_of.
Qed.

Lemma length_file_name (pfx : string) (i : nat) :
  (2 <= String.length (file_name pfx i))%nat.
Proof.
  rewrite file_name_tail, length_append.
  pose proof (length_tail_of i). lia.
Qed.

(** Frame paths sort in the order of their indices, whatever the
    directory and the prefix. *)
Lemma frame_path_lt (s : t) (i j : nat) :
  (i < j)%nat → (j <= 9999)%nat →
  str_lt (frame_path s i) (frame_path s j).
Proof.
  intros Hij Hj. destruct (frame_path_shape s) as [base Hb].
  unfold str_lt. rewrite !Hb, compare_append_head.
  by apply tail_of_lt.
Qed.

(** C5, as stated, fails: a prefix that starts with a slash makes
    [pathlib] drop the directory, and the frame is written at the root
    of the file system, not inside ["frames"]. *)
Lemma rooted_prefix_leaves_directory :
  frame_path Fixtures.rooted_handle 0 = "/image0000.png" ∧
  save_dir Fixtures.rooted_handle = of_str "frames" ∧
  ¬ frame_in_directory Fixtures.rooted_handle 0.
Proof.
  split; [vm_compute; reflexivity|]. split; [reflexivity|].
  intros [Hparent _]. vm_compute in Hparent. discriminate Hparent.
Qed.

(** C5, amended.  When the prefix contains no slash, the file written
    for index [i] is the file of the given directory whose name is the
    prefix, then [i] padded with zeros to four digits, then [".png"];
    and for [i < j <= 9999] both the name and the whole path of [i] come
    strictly before those of [j] in lexicographic order. *)
Theorem frame_name_in_directory_sorted (s : t) (i j : nat) :
  slash_free (prefix s) = true →
  frame_path s i
    = pathlib.str (mkPath (root (save_dir s))
                     (parts (save_dir s) ++
                      [prefix s +:+ format_04d i +:+ ".png"])) ∧
  frame_in_directory s i ∧
  ((i < j)%nat → (j <= 9999)%nat →
   str_lt (file_name (prefix s) i) (file_name (prefix s) j) ∧
   str_lt (frame_path s i) (frame_path s j)).
Proof.
  intros Hpfx.
  pose proof (truediv_single (save_dir s) (file_name (prefix s) i)
                (slash_free_file_name _ i Hpfx) (length_file_name _ i)) as Hdiv.
  split; [|split].
  - unfold _SaveInDirEnteredVisualizer.frame_path. by rewrite Hdiv.
  - unfold frame_in_directory. cbv zeta. rewrite Hdiv.
    split; [apply parent_snoc | apply name_snoc].
  - intros Hij Hj. split; [|by apply frame_path_lt].
    unfold str_lt. rewrite !file_name_tail, compare_append_head.
    by apply tail_of_lt.
Qed.

Lemma frame_name_in_directory_sorted_witness :
  slash_free (prefix Fixtures.dir_handle) = true ∧
  frame_path Fixtures.dir_handle 7 = "frames/image0007.png" ∧
  frame_in_directory Fixtures.dir_handle 7 ∧
  str_lt (frame_path Fixtures.dir_handle 7) (frame_path Fixtures.dir_handle 12).
Proof.
  assert (slash_free (prefix Fixtures.dir_handle) = true) as H
    by (vm_compute; reflexivity).
  destruct (frame_name_in_directory_sorted Fixtures.dir_handle 7 12 H)
    as (Hp & Hin & Hlt).
  split; [exact H|]. split; [exact Hp|]. split; [exact Hin|].
  apply Hlt; [lia | apply Nat.leb_le; vm_compute; reflexivity].
Defined.

End DirectoryClaims2.

Section VideoSession.
Import Text pathlib.

Local Abbreviation vid := _SaveToVidEnterVisualizer.t.
Local Abbreviation handle := _SaveInDirEnteredVisualizer.t.
Local Abbreviation frame_path := _SaveInDirEnteredVisualizer.frame_path.
Local Abbreviation temp_path := _SaveToVidEnterVisualizer.temp_path.
Local Abbreviation manager := _SaveToVidEnterVisualizer.temp_path_context_manager.
Local Abbreviation ffmpeg_command := _SaveToVidEnterVisualizer.ffmpeg_command.
Local Abbreviation mv_command := _SaveToVidEnterVisualizer.mv_command.
Local Abbreviation input_pattern := _SaveToVidEnterVisualizer.input_pattern.
Local Abbreviation temp_video := _SaveToVidEnterVisualizer.temp_video.

(** ** The file system *)



Lemma rmtree_released (dir : string) (d : Disk) :
  released dir (os.rmtree dir d).
Proof.
  unfold released, os.rmtree. cbn [dirs files]. split.
  - rewrite elem_of_filter. intros [[Hne _] _]. by apply Hne.
  - intros p Hp. split.
    + apply map_lookup_filter_None. right. intros f _ Hu.
      change (os.under dir p = false) in Hu. congruence.
    + rewrite elem_of_filter. intros [[_ Hu] _]. by rewrite Hp in Hu.
Qed.

Lemma dirname_slash_free (t : string) :
  slash_free t = true → os.dirname t = None.
Proof.
  induction t as [|c t IH]; [done|]. simpl.
  destruct (is_slash c); [done|]. simpl. intros H. by rewrite (IH H).
Qed.

Lemma dirname_child (dir x : string) :
  slash_free x = true → os.dirname (dir +:+ "/" +:+ x) = Some dir.
Proof.
  intros H. induction dir as [|c dir IH].
  - change ("" +:+ "/" +:+ x) with (String "/" x). simpl.
    by rewrite (dirname_slash_free x H).
  - rewrite append_cons. simpl. by rewrite IH.
Qed.

Lemma all_slashes_not_normal (dir : string) :
  os.all_slashes dir = true → parse_parts dir = [].
Proof.
  unfold parse_parts.
  assert (os.all_slashes dir = true →
          Forall (fun x => x = "") (split_slash dir)) as H.
  { induction dir as [|c dir IH]; [by repeat constructor|]. simpl.
    destruct (is_slash c); [|done]. simpl. intros Hd.
    constructor; [done | by apply IH]. }
  intros Hd. specialize (H Hd).
  induction H as [|x l -> _ IH]; [done|].
  rewrite filter_cons, decide_False; [exact IH | done].
Qed.

(** ** Texts without a NUL byte *)





(** ** Entering and leaving *)

Lemma enter_eq (m : vid) (w : World) :
  _SaveToVidEnterVisualizer.__enter__ (m, w) =
    match tempfile.pick (tmpdir w) (tmp_names w) (disk w) with
    | None =>
        (Raise (FileExistsError "No usable temporary directory name found"),
         (m, set_tmp_names [] w))
    | Some (file, rest) =>
        (Ok (_SaveInDirEnteredVisualizer.__init__
               (_SaveToVidEnterVisualizer.figure m) (of_str file)
               (_SaveToVidEnterVisualizer.prefix m)
               (_SaveToVidEnterVisualizer.dpi m)),
         (_SaveToVidEnterVisualizer.set_temp_path (Some file)
            (_SaveToVidEnterVisualizer.set_temp_path_context_manager
               (Some (tempfile.mkTemporaryDirectory file)) m),
          emit (Mkdtemp file)
            (set_disk (mkDisk (files (disk w)) ({[file]} ∪ dirs (disk w)))
               (set_tmp_names rest w))))
    end.
Proof.
  cbv beta delta [_SaveToVidEnterVisualizer.__enter__ mbind M_bind mret M_ret
                  get_self set_self io tempfile.__init__ tempfile.mkdtemp
                  tempfile.__enter__]; simpl.
  by destruct (tempfile.pick (tmpdir w) (tmp_names w) (disk w)) as [[file rest]|].
Qed.

(** Leaving an entered manager, case by case: each command is refused
    when its text holds a NUL byte, and the exit stops there; otherwise
    the world is the one after the two commands and the removal of the
    directory. *)
Lemma exit_cases (m : vid) (tm : tempfile.TemporaryDirectory) (w : World)
    (exc : ExcInfo) :
  manager m = Some tm →
  _SaveToVidEnterVisualizer.__exit__ exc (m, w) =
    if nul_free (ffmpeg_command m) then
      let w1 := set_disk (shell w (ffmpeg_command m) (disk w)).2
                  (emit (System (ffmpeg_command m)) w) in
      if nul_free (mv_command m) then
        let w2 := set_disk (shell w (mv_command m) (disk w1)).2
                    (emit (System (mv_command m)) w1) in
        (Ok tt,
         (m, set_disk (os.rmtree (tempfile.name tm) (disk w2))
               (emit (Rmtree (tempfile.name tm)) w2)))
      else (Raise ValueError, (m, w1))
    else (Raise ValueError, (m, w)).
Proof.
  intros Hm.
  cbv beta iota zeta delta [_SaveToVidEnterVisualizer.__exit__ mbind M_bind
                            mret M_ret get_self io fst snd].
  rewrite Hm.
  generalize (ffmpeg_command m) (mv_command m). intros c1 c2.
  cbv beta iota zeta delta [mbind M_bind mret M_ret io os.system
                            tempfile.__exit__ tempfile.cleanup fst snd].
  simpl. destruct (nul_free c1); simpl; [|done].
  destruct (shell w c1 (disk w)) as [st1 d1]. simpl.
  destruct (nul_free c2); simpl; [|done].
  by destruct (shell w c2 d1) as [st2 d2].
Qed.

(** The world after the two commands and the removal of [dir]. *)
Lemma exit_eq (m : vid) (tm : tempfile.TemporaryDirectory) (w : World)
    (exc : ExcInfo) :
  manager m = Some tm →
  nul_free (ffmpeg_command m) = true →
  nul_free (mv_command m) = true →
  _SaveToVidEnterVisualizer.__exit__ exc (m, w) =
    let w1 := set_disk (shell w (ffmpeg_command m) (disk w)).2
                (emit (System (ffmpeg_command m)) w) in
    let w2 := set_disk (shell w (mv_command m) (disk w1)).2
                (emit (System (mv_command m)) w1) in
    (Ok tt,
     (m, set_disk (os.rmtree (tempfile.name tm) (disk w2))
           (emit (Rmtree (tempfile.name tm)) w2))).
Proof.
  intros Hm Hf Hv. by rewrite (exit_cases m tm w exc Hm), Hf, Hv.
Qed.

(** An exit that returned has removed the directory. *)
Lemma exit_ok_inv (m m' : vid) (tm : tempfile.TemporaryDirectory)
    (w w' : World) (exc : ExcInfo) :
  manager m = Some tm →
  _SaveToVidEnterVisualizer.__exit__ exc (m, w) = (Ok tt, (m', w')) →
  nul_free (ffmpeg_command m) = true ∧ nul_free (mv_command m) = true ∧
  released (tempfile.name tm) (disk w').
Proof.
  intros Hm. rewrite (exit_cases m tm w exc Hm).
  destruct (nul_free (ffmpeg_command m)); [|done].
  destruct (nul_free (mv_command m)); [|done].
  cbv zeta. intros [= _ <-]. do 2 (split; [done|]).
  cbn [disk set_disk]. apply rmtree_released.
Qed.

Lemma exit_not_entered (m : vid) (w : World) (exc : ExcInfo) :
  manager m = None →
  _SaveToVidEnterVisualizer.__exit__ exc (m, w) =
    (Raise (RuntimeError "Temporary directory context manager is None"),
     (m, w)).
Proof.
  intros Hm.
  cbv beta delta [_SaveToVidEnterVisualizer.__exit__ mbind M_bind get_self].
  simpl. rewrite Hm. by destruct m, w.
Qed.

Lemma pick_fresh (dir : string) (names rest : list string) (d : Disk)
    (file : string) :
  tempfile.pick dir names d = Some (file, rest) → os.exists_ d file = false.
Proof.
  induction names as [|n names IH]; [done|]. simpl.
  destruct (os.exists_ d (dir +:+ "/" +:+ "tmp" +:+ n)) eqn:E; [exact IH|].
  by intros [= <- _].
Qed.

(** What a successful [__enter__] leaves behind. *)
Lemma enter_ok_inv (m m1 : vid) (h : handle) (w w1 : World) :
  _SaveToVidEnterVisualizer.__enter__ (m, w) = (Ok h, (m1, w1)) →
  ∃ tp,
    os.exists_ (disk w) tp = false ∧
    m1 = _SaveToVidEnterVisualizer.set_temp_path (Some tp)
           (_SaveToVidEnterVisualizer.set_temp_path_context_manager
              (Some (tempfile.mkTemporaryDirectory tp)) m) ∧
    h = _SaveInDirEnteredVisualizer.__init__
          (_SaveToVidEnterVisualizer.figure m) (of_str tp)
          (_SaveToVidEnterVisualizer.prefix m)
          (_SaveToVidEnterVisualizer.dpi m) ∧
    dirs (disk w1) = {[tp]} ∪ dirs (disk w) ∧
    files (disk w1) = files (disk w) ∧
    log w1 = log w ++ [Mkdtemp tp].
Proof.
  rewrite enter_eq.
  destruct (tempfile.pick (tmpdir w) (tmp_names w) (disk w))
    as [[file rest]|] eqn:Hpick; [|done].
  intros [= <- <- <-]. exists file.
  split; [by eapply pick_fresh|]. done.
Qed.

Lemma video_enter_eq (v : VideoVisualizer.t) (f : Figure) (w : World) :
  VideoVisualizer.enter f (v, w) =
    (Ok (_SaveToVidEnterVisualizer.__init__ f (VideoVisualizer.video_path v)
           (VideoVisualizer.fps v) (VideoVisualizer.dpi v)), (v, w)).
Proof. reflexivity. Qed.

End VideoSession.

Section ScratchNames.
Import Text pathlib.

Lemma split_slash_nonempty (s : string) : split_slash s ≠ [].
Proof.
  induction s as [|c s IH]; [done|]. simpl.
  destruct (is_slash c); [done|]. by destruct (split_slash s).
Qed.

Lemma split_slash_join (a b : string) :
  split_slash (a +:+ String "/" b) = split_slash a ++ split_slash b.
Proof.
  induction a as [|c a IH]; [done|]. rewrite append_cons. simpl.
  rewrite IH. destruct (is_slash c); [done|].
  pose proof (split_slash_nonempty a). by destruct (split_slash a).
Qed.

Lemma parse_root_keeps (d t : string) :
  parse_parts d ≠ [] → parse_root (d +:+ String "/" t) = parse_root d.
Proof.
  destruct d as [|a [|b [|c d]]]; [done|..]; unfold parse_parts;
    rewrite ?append_cons; simpl.
  - destruct (is_slash a); [|done]. simpl.
    rewrite filter_cons, decide_False by done.
    by rewrite filter_cons, decide_False by done.
  - destruct (is_slash a); [|done]. destruct (is_slash b); [|done]. simpl.
    rewrite filter_cons, decide_False by done.
    rewrite filter_cons, decide_False by done.
    by rewrite filter_cons, decide_False by done.
  - done.
Qed.

(** A child of a directory in normal form is in normal form. *)
Lemma normal_dir_child (d x : string) :
  normal_dir d → slash_free x = true → (2 <= String.length x)%nat →
  normal_dir (d +:+ "/" +:+ x).
Proof.
  intros Hd Hx Hlen.
  assert (of_str (d +:+ "/" +:+ x) = truediv (of_str d) x) as Hof.
  { rewrite (truediv_single _ x Hx Hlen). unfold of_str. f_equal.
    - apply parse_root_keeps, Hd.
    - unfold parse_parts. cbn [parts].
      change (d +:+ "/" +:+ x) with (d +:+ String "/" x).
      rewrite split_slash_join, filter_app, (split_slash_free x Hx).
      rewrite (filter_cons _ x), filter_nil, decide_True; [done|].
      by apply keep_part_long. }
  split.
  - rewrite Hof. by apply str_truediv_normal.
  - rewrite Hof, (truediv_single _ x Hx Hlen). cbn [parts].
    by destruct (parts (of_str d)).
Qed.

Lemma percent_free_append (a b : string) :
  percent_free (a +:+ b) = percent_free a && percent_free b.
Proof.
  induction a as [|c a IH]; [done|]. rewrite append_cons. simpl.
  by rewrite IH, andb_assoc.
Qed.

(** What [mkdtemp] picks in a world with sound settings. *)
Lemma pick_normal (dir : string) (names rest : list string) (d : Disk)
    (file : string) :
  normal_dir dir → percent_free dir = true →
  Forall (fun n => slash_free n = true ∧ percent_free n = true) names →
  tempfile.pick dir names d = Some (file, rest) →
  normal_dir file ∧ percent_free file = true.
Proof.
  intros Hdir Hpct Hnames. induction Hnames as [|n names [Hn Hp] _ IH];
    [done|]. simpl.
  destruct (os.exists_ d (dir +:+ "/" +:+ "tmp" +:+ n)); [exact IH|].
  intros [= <- _]. split.
  - apply normal_dir_child; [done | |].
    + by rewrite slash_free_append, Hn.
    + rewrite length_append. simpl. lia.
  - by rewrite !percent_free_append, Hpct, Hp.
Qed.

(** The scratch directory of a session begun in such a world has a name
    in normal form and without percent sign. *)
Lemma enter_scratch_normal
    (m m1 : _SaveToVidEnterVisualizer.t) (h : _SaveInDirEnteredVisualizer.t)
    (w w1 : World) (tp : string) :
  tmp_ok w →
  _SaveToVidEnterVisualizer.__enter__ (m, w) = (Ok h, (m1, w1)) →
  _SaveToVidEnterVisualizer.temp_path m1 = Some tp →
  normal_dir tp ∧ percent_free tp = true.
Proof.
  intros (Hdir & Hpct & Hnames). rewrite enter_eq.
  destruct (tempfile.pick (tmpdir w) (tmp_names w) (disk w))
    as [[file rest]|] eqn:Hpick; [|done].
  intros [= _ <- _] [= <-].
  by eapply pick_normal.
Qed.

End ScratchNames.

Section VideoClaims.
Import Text pathlib.

Local Abbreviation vid := _SaveToVidEnterVisualizer.t.
Local Abbreviation handle := _SaveInDirEnteredVisualizer.t.
Local Abbreviation frame_path := _SaveInDirEnteredVisualizer.frame_path.
Local Abbreviation file_name := _SaveInDirEnteredVisualizer.file_name.
Local Abbreviation temp_path := _SaveToVidEnterVisualizer.temp_path.
Local Abbreviation manager := _SaveToVidEnterVisualizer.temp_path_context_manager.
Local Abbreviation ffmpeg_command := _SaveToVidEnterVisualizer.ffmpeg_command.
Local Abbreviation mv_command := _SaveToVidEnterVisualizer.mv_command.
Local Abbreviation input_pattern := _SaveToVidEnterVisualizer.input_pattern.
Local Abbreviation temp_video := _SaveToVidEnterVisualizer.temp_video.

(** Leaving an entered manager whose commands hold no NUL byte returns;
    the log grows by the two commands and the removal, and the
    directory is gone. *)
Lemma exit_entered (m : vid) (tm : tempfile.TemporaryDirectory) (w : World)
    (exc : ExcInfo) :
  manager m = Some tm →
  nul_free (ffmpeg_command m) = true →
  nul_free (mv_command m) = true →
  ∃ w', _SaveToVidEnterVisualizer.__exit__ exc (m, w) = (Ok tt, (m, w')) ∧
        log w' = log w ++ [System (ffmpeg_command m); System (mv_command m);
                           Rmtree (tempfile.name tm)] ∧
        released (tempfile.name tm) (disk w').
Proof.
  intros Hm Hf Hv. eexists. split; [apply (exit_eq m tm w exc Hm Hf Hv)|].
  cbv zeta. split.
  - cbn [log emit set_disk]. by rewrite <- !app_assoc.
  - cbn [disk set_disk]. apply rmtree_released.
Qed.


(** A NUL byte in the move command: the encoder has run, nothing else. *)
Lemma exit_refused_move (m : vid) (tm : tempfile.TemporaryDirectory)
    (w : World) (exc : ExcInfo) :
  manager m = Some tm →
  nul_free (ffmpeg_command m) = true →
  nul_free (mv_command m) = false →
  ∃ w', _SaveToVidEnterVisualizer.__exit__ exc (m, w)
          = (Raise ValueError, (m, w')) ∧
        log w' = log w ++ [System (ffmpeg_command m)].
Proof.
  intros Hm Hf Hv. eexists.
  split; [by rewrite (exit_cases m tm w exc Hm), Hf, Hv|]. reflexivity.
Qed.


Lemma frame_path_scratch (f : Figure) (tp : string) (d : Z) (i : nat) :
  normal_dir tp →
  frame_path (_SaveInDirEnteredVisualizer.__init__ f (of_str tp) "image_" d) i
    = tp +:+ "/" +:+ "image_" +:+ format_04d i +:+ ".png".
Proof.
  intros Hn. unfold _SaveInDirEnteredVisualizer.frame_path.
  cbn [_SaveInDirEnteredVisualizer.save_dir _SaveInDirEnteredVisualizer.prefix
       _SaveInDirEnteredVisualizer.__init__].
  rewrite (str_truediv_normal tp (file_name "image_" i) Hn).
  - reflexivity.
  - by apply slash_free_file_name.
  - apply length_file_name.
Qed.

(** C10. Leaving a video manager that was never entered raises
    [RuntimeError] at once: the manager and the world, its log of
    commands included, are exactly as before, so neither the encoder nor
    the move was started. *)
Theorem exit_without_enter_raises
    (f : Figure) (vp : Path) (fps d : Z) (exc : ExcInfo) (w : World) :
  _SaveToVidEnterVisualizer.__exit__ exc
      (_SaveToVidEnterVisualizer.__init__ f vp fps d, w)
    = (Raise (RuntimeError "Temporary directory context manager is None"),
       (_SaveToVidEnterVisualizer.__init__ f vp fps d, w)).
Proof. by apply exit_not_entered. Qed.




End VideoClaims.

Section VideoClaims2.
Import Text pathlib.

Local Abbreviation vid := _SaveToVidEnterVisualizer.t.
Local Abbreviation handle := _SaveInDirEnteredVisualizer.t.
Local Abbreviation frame_path := _SaveInDirEnteredVisualizer.frame_path.
Local Abbreviation file_name := _SaveInDirEnteredVisualizer.file_name.
Local Abbreviation temp_path := _SaveToVidEnterVisualizer.temp_path.
Local Abbreviation manager := _SaveToVidEnterVisualizer.temp_path_context_manager.
Local Abbreviation ffmpeg_command := _SaveToVidEnterVisualizer.ffmpeg_command.
Local Abbreviation mv_command := _SaveToVidEnterVisualizer.mv_command.
Local Abbreviation input_pattern := _SaveToVidEnterVisualizer.input_pattern.
Local Abbreviation temp_video := _SaveToVidEnterVisualizer.temp_video.




(** ** The encoder's pattern *)

Lemma expand_percent_free (tp rest : string) (i : nat) :
  percent_free tp = true →
  expand_04d (tp +:+ rest) i = tp +:+ expand_04d rest i.
Proof.
  induction tp as [|c tp IH]; [done|]. rewrite !append_cons. simpl.
  destruct (Ascii.eqb c "%"); [done|]. simpl. intros H. by rewrite (IH H).
Qed.

Lemma expand_image_pattern (i : nat) :
  expand_04d "/image_%04d.png" i = "/image_" +:+ format_04d i +:+ ".png".
Proof. reflexivity. Qed.

(** C6, as stated, fails.  In a world whose temporary directory has a
    percent sign in its name, the pattern handed to the encoder does not
    name the frames: its first ["%04d"] is the one of the directory, so
    that index 7 is looked for in another directory, while the handle
    wrote frame 7 under the real one.  A demo session run there saves
    its frames, the encoder finds none and no video is written. *)
Lemma percent_in_scratch_name_breaks_pattern :
  (_SaveToVidEnterVisualizer.__enter__
     (Fixtures.vid_enter, MoreFixtures.world_percent)).1
    = Ok (_SaveInDirEnteredVisualizer.__init__ Fixtures.fig0
            (of_str "/t%04dmp/tmpk3x9q_ab") "image_" 50) ∧
  input_pattern
    (_SaveToVidEnterVisualizer.__enter__
       (Fixtures.vid_enter, MoreFixtures.world_percent)).2.1
    = "/t%04dmp/tmpk3x9q_ab/image_%04d.png" ∧
  expand_04d "/t%04dmp/tmpk3x9q_ab/image_%04d.png" 7
    = "/t0007mp/tmpk3x9q_ab/image_%04d.png" ∧
  frame_path (_SaveInDirEnteredVisualizer.__init__ Fixtures.fig0
                (of_str "/t%04dmp/tmpk3x9q_ab") "image_" 50) 7
    = "/t%04dmp/tmpk3x9q_ab/image_0007.png" ∧
  log (session (V:=VideoVisualizer.t) Fixtures.fig0
         (record Fixtures.fig0 [10; 20]%nat)
         (Fixtures.video, MoreFixtures.world_percent)).2.2
    = [Mkdtemp "/t%04dmp/tmpk3x9q_ab";
       Savefig "/t%04dmp/tmpk3x9q_ab/image_0000.png" 50;
       Savefig "/t%04dmp/tmpk3x9q_ab/image_0001.png" 50;
       System "ffmpeg -framerate 2 -i /t%04dmp/tmpk3x9q_ab/image_%04d.png -c:v libx264 -pix_fmt yuv420p /t%04dmp/tmpk3x9q_ab/video.mp4";
       System "mv /t%04dmp/tmpk3x9q_ab/video.mp4 demo_video.mp4";
       Rmtree "/t%04dmp/tmpk3x9q_ab"] ∧
  files (disk (session (V:=VideoVisualizer.t) Fixtures.fig0
                 (record Fixtures.fig0 [10; 20]%nat)
                 (Fixtures.video, MoreFixtures.world_percent)).2.2)
    !! "demo_video.mp4" = None ∧
  ¬ pattern_names_frames.
Proof.
  split; [vm_compute; reflexivity|]. split; [vm_compute; reflexivity|].
  split; [vm_compute; reflexivity|]. split; [vm_compute; reflexivity|].
  split; [vm_compute; reflexivity|]. split; [vm_compute; reflexivity|].
  intros Hclaim.
  assert (tempfile.pick (tmpdir MoreFixtures.world_percent)
            (tmp_names MoreFixtures.world_percent)
            (disk MoreFixtures.world_percent)
          = Some ("/t%04dmp/tmpk3x9q_ab", [])) as Hpick
    by (vm_compute; reflexivity).
  pose proof (enter_eq Fixtures.vid_enter MoreFixtures.world_percent)
    as Henter.
  rewrite Hpick in Henter.
  pose proof (Hclaim Fixtures.video Fixtures.fig0 _ _ _ _ _ 7%nat
                eq_refl Henter) as Heq.
  vm_compute in Heq. discriminate Heq.
Qed.

(** C6, amended.  Beginning a video session from a recorder creates a
    directory that did not exist and returns a directory handle on it,
    with prefix ["image_"] and index 0.  The command built for the scope
    exit names, after [-i], the pattern made of that directory, the same
    prefix, ["%04d"] and the same extension, and gives the frame rate of
    the recorder after [-framerate]; it is the first thing the exit
    runs, whenever its text holds no NUL byte.  When the settings of
    [tempfile] are sound (the temporary directory is named in normal
    form and is not a root, neither it nor the candidate names hold a
    percent sign, the names no slash either), expanding the pattern at
    any index gives exactly the path the handle writes for that
    index. *)
Theorem encoder_pattern_matches_frames
    (v : VideoVisualizer.t) (f : Figure) (m0 m1 : vid) (h : handle)
    (w w1 : World) :
  enter f (v, w) = (Ok m0, (v, w)) →
  _SaveToVidEnterVisualizer.__enter__ (m0, w) = (Ok h, (m1, w1)) →
  ∃ tp,
    temp_path m1 = Some tp ∧
    os.exists_ (disk w) tp = false ∧
    tp ∈ dirs (disk w1) ∧
    h = _SaveInDirEnteredVisualizer.__init__ f (of_str tp) "image_"
          (VideoVisualizer.dpi v) ∧
    input_pattern m1 = tp +:+ "/" +:+ "image_" +:+ "%04d" +:+ ".png" ∧
    (∀ i, file_name (_SaveInDirEnteredVisualizer.prefix h) i
            = "image_" +:+ format_04d i +:+ ".png") ∧
    ffmpeg_command m1 =
      "ffmpeg -framerate " +:+ str_int (VideoVisualizer.fps v) +:+ " -i "
      +:+ input_pattern m1
      +:+ " -c:v libx264 -pix_fmt yuv420p " +:+ tp +:+ "/video.mp4" ∧
    (nul_free (ffmpeg_command m1) = true →
     ∀ (w2 : World) (exc : ExcInfo),
       ∃ r w3 l,
         _SaveToVidEnterVisualizer.__exit__ exc (m1, w2) = (r, (m1, w3)) ∧
         log w3 = log w2 ++ System (ffmpeg_command m1) :: l) ∧
    (tmp_ok w →
     ∀ i, expand_04d (input_pattern m1) i = frame_path h i).
Proof.
  intros Hrec Henter.
  assert (m0 = _SaveToVidEnterVisualizer.__init__ f
                 (VideoVisualizer.video_path v) (VideoVisualizer.fps v)
                 (VideoVisualizer.dpi v)) as ->.
  { change (@enter VideoVisualizer.t Video_visualizer f (v, w))
      with (VideoVisualizer.enter f (v, w)) in Hrec.
    rewrite video_enter_eq in Hrec. congruence. }
  destruct (enter_ok_inv _ _ _ _ _ Henter)
    as (tp & Hfresh & Hm1 & Hh & Hdirs & _).
  assert (manager m1 = Some (tempfile.mkTemporaryDirectory tp)) as Hmgr
    by (by rewrite Hm1).
  exists tp. split; [by rewrite Hm1|]. split; [exact Hfresh|].
  split. { rewrite Hdirs. by apply elem_of_union_l, elem_of_singleton. }
  split; [exact Hh|]. split; [by rewrite Hm1|].
  split; [by rewrite Hh|]. split; [by rewrite Hm1|]. split.
  - intros Hf w2 exc.
    destruct (nul_free (mv_command m1)) eqn:Hv.
    + destruct (exit_entered m1 _ w2 exc Hmgr Hf Hv)
        as (w3 & Hexit & Hlog & _).
      eexists _, w3, _. split; [exact Hexit | exact Hlog].
    + destruct (exit_refused_move m1 _ w2 exc Hmgr Hf Hv)
        as (w3 & Hexit & Hlog).
      eexists _, w3, _. split; [exact Hexit | exact Hlog].
  - intros Hok i.
    destruct (enter_scratch_normal _ _ _ _ _ tp Hok Henter) as [Hn Hp];
      [by rewrite Hm1|].
    rewrite Hh.
    cbn [_SaveToVidEnterVisualizer.figure _SaveToVidEnterVisualizer.prefix
         _SaveToVidEnterVisualizer.dpi _SaveToVidEnterVisualizer.__init__].
    rewrite (frame_path_scratch _ _ _ _ Hn), Hm1.
    change (input_pattern _) with (tp +:+ "/image_%04d.png").
    by rewrite (expand_percent_free _ _ _ Hp).
Qed.

Lemma world0_tmp_ok (installed : bool) : tmp_ok (Fixtures.world0 installed).
Proof.
  split; [split; [vm_compute; reflexivity | vm_compute; discriminate]|].
  split; [vm_compute; reflexivity|].
  repeat constructor.
Defined.

Lemma encoder_pattern_matches_frames_witness :
  ∃ h m1 w1,
    _SaveToVidEnterVisualizer.__enter__
        (Fixtures.vid_enter, Fixtures.world0 true) = (Ok h, (m1, w1)) ∧
    input_pattern m1 = "/tmp/tmpk3x9q_ab/image_%04d.png" ∧
    ffmpeg_command m1 =
      "ffmpeg -framerate 2 -i /tmp/tmpk3x9q_ab/image_%04d.png -c:v libx264 -pix_fmt yuv420p /tmp/tmpk3x9q_ab/video.mp4" ∧
    expand_04d (input_pattern m1) 7 = frame_path h 7 ∧
    frame_path h 7 = "/tmp/tmpk3x9q_ab/image_0007.png".
Proof.
  assert (tempfile.pick (tmpdir (Fixtures.world0 true))
            (tmp_names (Fixtures.world0 true)) (disk (Fixtures.world0 true))
          = Some ("/tmp/tmpk3x9q_ab", ["zz81mm0p"; "a0a0a0a0"])) as Hpick
    by (vm_compute; reflexivity).
  pose proof (enter_eq Fixtures.vid_enter (Fixtures.world0 true)) as Henter.
  rewrite Hpick in Henter.
  destruct (encoder_pattern_matches_frames Fixtures.video Fixtures.fig0
              _ _ _ _ _ eq_refl Henter)
    as (tp & Htp & _ & _ & _ & Hpat & _ & Hcmd & _ & Hexp).
  assert (tp = "/tmp/tmpk3x9q_ab") as -> by (cbn in Htp; congruence).
  eexists _, _, _. split; [exact Henter|]. split; [exact Hpat|].
  split; [exact Hcmd|]. split.
  - apply Hexp. exact (world0_tmp_ok true).
  - vm_compute. reflexivity.
Defined.

End VideoClaims2.

Section Recorders.
Import Text pathlib.

Local Abbreviation vid := _SaveToVidEnterVisualizer.t.
Local Abbreviation handle := _SaveInDirEnteredVisualizer.t.
Local Abbreviation frame_path := _SaveInDirEnteredVisualizer.frame_path.
Local Abbreviation temp_path := _SaveToVidEnterVisualizer.temp_path.
Local Abbreviation input_pattern := _SaveToVidEnterVisualizer.input_pattern.
Local Abbreviation mv_command := _SaveToVidEnterVisualizer.mv_command.



End Recorders.

Section LiveAndLifecycle.
Import Text pathlib.

Local Abbreviation vid := _SaveToVidEnterVisualizer.t.
Local Abbreviation handle := _SaveInDirEnteredVisualizer.t.
Local Abbreviation frame_path := _SaveInDirEnteredVisualizer.frame_path.
Local Abbreviation file_name := _SaveInDirEnteredVisualizer.file_name.
Local Abbreviation set_index := _SaveInDirEnteredVisualizer.set_index.
Local Abbreviation temp_path := _SaveToVidEnterVisualizer.temp_path.
Local Abbreviation input_pattern := _SaveToVidEnterVisualizer.input_pattern.
Local Abbreviation mv_command := _SaveToVidEnterVisualizer.mv_command.


(** ** The live preview *)

Local Abbreviation live_handle := _LiveVideoEnteredVisualizer.__init__.
Local Abbreviation live_manager := _LiveVideoEnterVisualizer.__init__.

(** One call of [step] on a live handle: the division, then the pause. *)
Lemma live_step_eq (f : Figure) (fps : Q) (w : World) :
  step (live_handle f fps, w) =
    if Qeq_bool fps 0
    then (Raise ZeroDivisionError, (live_handle f fps, w))
    else match matplotlib.pause (builtins.float_quotient 1 fps) w with
         | (r, w') => (r, (live_handle f fps, w'))
         end.
Proof.
  cbv beta delta [step Live_entered _LiveVideoEnteredVisualizer.step
                  mbind M_bind get_self io builtins.one_over raise
                  mret M_ret].
  cbn [fst snd _LiveVideoEnteredVisualizer.fps
       _LiveVideoEnteredVisualizer.__init__].
  by destruct (Qeq_bool fps 0).
Qed.

(** The literal [0.001] of the display handle is the [float] that the
    division of 1 by 1000 gives. *)
Lemma literal_0_001_is_quotient :
  builtins.float_quotient 1 1000 = builtins.literal_0_001.
Proof. vm_compute. reflexivity. Qed.

(** The division on the rates of the demos and on some others, next to
    what Python prints for the quotient.  A rate that is a [float] is
    given by its exact value: 29.97 is 1054475631502295 / 2^45. *)
Lemma float_quotient_examples :
  (* 0.03333333333333333 *)
  builtins.float_quotient 1 30 = S754_finite false 4803839602528529 (-57) ∧
  (* 0.1 *)
  builtins.float_quotient 1 10 = S754_finite false 7205759403792794 (-56) ∧
  (* 0.06666666666666667 *)
  builtins.float_quotient 1 15 = S754_finite false 4803839602528529 (-56) ∧
  (* 0.5 *)
  builtins.float_quotient 1 2 = S754_finite false 4503599627370496 (-53) ∧
  (* -0.25 *)
  builtins.float_quotient 1 (-4) = S754_finite true 4503599627370496 (-54) ∧
  (* 0.033366700033366704 *)
  builtins.float_quotient 1 (1054475631502295 # 35184372088832)
    = S754_finite false 4808648250779309 (-57) ∧
  (* 1 / 5e-324 is inf *)
  builtins.float_quotient 1 (1 # 2 ^ 1074) = S754_infinity false.
Proof. repeat split; vm_compute; reflexivity. Qed.

(** A quotient that is a finite number was not a division by zero. *)
Lemma finite_quotient_nonzero (fps : Q) (s : bool) (m : positive) (e : Z) :
  builtins.float_quotient 1 fps = S754_finite s m e → Qeq_bool fps 0 = false.
Proof.
  intros Hq. destruct (Qeq_bool fps 0) eqn:E; [|done]. exfalso.
  apply Qeq_bool_eq in E. destruct fps as [n dd]. unfold Qeq in E.
  cbn in E. rewrite Z.mul_1_r in E. subst n.
  unfold builtins.float_quotient in Hq. cbn in Hq. discriminate Hq.
Qed.

(** With a positive finite interval the pause returns. *)
Lemma live_step_pos (f : Figure) (fps : Q) (w : World)
    (m : positive) (e : Z) :
  builtins.float_quotient 1 fps = S754_finite false m e →
  step (live_handle f fps, w) =
    (Ok tt, (live_handle f fps, emit (Pause (S754_finite false m e)) w)).
Proof.
  intros Hq. rewrite live_step_eq, (finite_quotient_nonzero _ _ _ _ Hq), Hq.
  reflexivity.
Qed.





(** ** After the scope *)

(** C9, as stated, fails.  A live handle used after its scope has ended
    does not raise: it pauses for half a second, as before. *)
Lemma live_step_after_exit_runs :
  __enter__ (Fixtures.live_enter, Fixtures.world0 true)
    = (Ok (live_handle Fixtures.fig0 2),
       (Fixtures.live_enter, Fixtures.world0 true)) ∧
  __exit__ None (Fixtures.live_enter, Fixtures.world0 true)
    = (Ok tt, (Fixtures.live_enter, Fixtures.world0 true)) ∧
  step (live_handle Fixtures.fig0 2, Fixtures.world0 true)
    = (Ok tt, (live_handle Fixtures.fig0 2,
               emit (Pause (S754_finite false 4503599627370496 (-53)))
                 (Fixtures.world0 true))) ∧
  ¬ step_after_exit_raises _LiveVideoEnterVisualizer.t.
Proof.
  assert (step (live_handle Fixtures.fig0 2, Fixtures.world0 true)
          = (Ok tt, (live_handle Fixtures.fig0 2,
                     emit (Pause (S754_finite false 4503599627370496 (-53)))
                       (Fixtures.world0 true)))) as Hstep
    by (apply live_step_pos; vm_compute; reflexivity).
  split; [reflexivity|]. split; [reflexivity|]. split; [exact Hstep|].
  intros Hclaim.
  destruct (Hclaim Fixtures.live_enter Fixtures.live_enter Fixtures.live_enter
              (live_handle Fixtures.fig0 2) (live_handle Fixtures.fig0 2)
              (Fixtures.world0 true) (Fixtures.world0 true)
              (Fixtures.world0 true)
              (emit (Pause (S754_finite false 4503599627370496 (-53)))
                 (Fixtures.world0 true))
              None (Ok tt) eq_refl eq_refl Hstep) as [[e He] _].
  discriminate He.
Qed.

Lemma parent_missing (tp x : string) (d : Disk) :
  normal_dir tp → slash_free x = true → tp ∉ dirs d →
  os.parent_exists d (tp +:+ "/" +:+ x) = false.
Proof.
  intros [_ Hparts] Hx Hd. unfold os.parent_exists.
  rewrite (dirname_child tp x Hx).
  apply orb_false_intro; [|by apply bool_decide_eq_false].
  destruct (os.all_slashes tp) eqn:E; [|done].
  exfalso. apply Hparts. by apply all_slashes_not_normal.
Qed.

(** The [with] statement of a manager whose [__enter__] and [__exit__]
    change nothing is transparent for a block that returns. *)
Lemma with_transparent {T} `{EnterVisualizer T} (body : Method Entered unit)
    (m : T) (h h' : Entered) (w w' : World) :
  __enter__ (m, w) = (Ok h, (m, w)) →
  __exit__ None (m, w') = (Ok tt, (m, w')) →
  body (h, w) = (Ok tt, (h', w')) →
  with_ body (m, w) = (Ok (Some h'), (m, w')).
Proof. intros He Hx Hb. unfold with_. by rewrite He, Hb, Hx. Qed.

(** C9, amended.  A [step] after the end of the scope is not refused
    as such.  On the handle of a video session whose exit returned, a
    [step] after the exit still calls [savefig] for its current index in
    the scratch directory; that directory is gone, so (the settings of
    [tempfile] being sound) the call raises [FileNotFoundError], writes
    nothing and leaves the index where it was.  For a live session and for a display
    session, entering and leaving the scope change neither the manager
    nor the world, and the [with] statement around a block that returns
    leaves the handle and the world exactly as the block left them: a
    [step] after the scope is the same call, in the same state, as one
    more [step] inside it. *)
Theorem step_after_exit_is_unchecked
    (f : Figure) (vp : Path) (fps d : Z) (m1 : vid) (h : handle)
    (w w1 w2 w3 : World) (exc : ExcInfo) (k : nat) :
  _SaveToVidEnterVisualizer.__enter__
      (_SaveToVidEnterVisualizer.__init__ f vp fps d, w)
    = (Ok h, (m1, w1)) →
  _SaveToVidEnterVisualizer.__exit__ exc (m1, w2) = (Ok tt, (m1, w3)) →
  tmp_ok w →
  step (set_index k h, w3)
    = (Raise (FileNotFoundError (frame_path h k)),
       (set_index k h, emit (Savefig (frame_path h k) d) w3)) ∧
  disk (emit (Savefig (frame_path h k) d) w3) = disk w3 ∧
  (∀ (lf : Figure) (lfps : Q) (lw : World) (lexc : ExcInfo),
      _LiveVideoEnterVisualizer.__enter__ (live_manager lf lfps, lw)
        = (Ok (live_handle lf lfps), (live_manager lf lfps, lw)) ∧
      _LiveVideoEnterVisualizer.__exit__ lexc (live_manager lf lfps, lw)
        = (Ok tt, (live_manager lf lfps, lw)) ∧
      ∀ (body : Method _LiveVideoEnteredVisualizer.t unit)
        (lh : _LiveVideoEnteredVisualizer.t) (lw' : World),
        body (live_handle lf lfps, lw) = (Ok tt, (lh, lw')) →
        with_ (T:=_LiveVideoEnterVisualizer.t) body (live_manager lf lfps, lw)
          = (Ok (Some lh), (live_manager lf lfps, lw'))) ∧
  (∀ (sf : Figure) (sw : World) (sexc : ExcInfo),
      _ShowEnterVisualizer.__enter__ (_ShowEnterVisualizer.__init__ sf, sw)
        = (Ok (_ShowEnteredVisualizer.__init__ sf),
           (_ShowEnterVisualizer.__init__ sf, sw)) ∧
      _ShowEnterVisualizer.__exit__ sexc
          (_ShowEnterVisualizer.__init__ sf, sw)
        = (Ok tt, (_ShowEnterVisualizer.__init__ sf, sw)) ∧
      ∀ (body : Method _ShowEnteredVisualizer.t unit)
        (sh : _ShowEnteredVisualizer.t) (sw' : World),
        body (_ShowEnteredVisualizer.__init__ sf, sw) = (Ok tt, (sh, sw')) →
        with_ (T:=_ShowEnterVisualizer.t) body
            (_ShowEnterVisualizer.__init__ sf, sw)
          = (Ok (Some sh), (_ShowEnterVisualizer.__init__ sf, sw'))).
Proof.
  intros Henter Hexit Hok.
  destruct (enter_ok_inv _ _ _ _ _ Henter) as (tp & _ & Hm1 & Hh & _).
  destruct (enter_scratch_normal _ _ _ _ _ tp Hok Henter) as [Hn _];
    [by rewrite Hm1|].
  destruct (exit_ok_inv m1 m1 (tempfile.mkTemporaryDirectory tp) w2 w3 exc)
    as (_ & _ & [Hgone _]); [by rewrite Hm1 | exact Hexit |].
  cbn [tempfile.name] in Hgone.
  split; [|split; [reflexivity|]; split].
  - change (@step handle SaveInDir_entered (set_index k h, w3))
      with (_SaveInDirEnteredVisualizer.step (set_index k h, w3)).
    rewrite step_eq. cbv zeta. rewrite Hh.
    cbn [_SaveToVidEnterVisualizer.figure _SaveToVidEnterVisualizer.prefix
         _SaveToVidEnterVisualizer.dpi _SaveToVidEnterVisualizer.__init__
         _SaveInDirEnteredVisualizer.index _SaveInDirEnteredVisualizer.dpi
         _SaveInDirEnteredVisualizer.set_index
         _SaveInDirEnteredVisualizer.__init__].
    rewrite frame_path_set_index, (frame_path_scratch _ _ _ _ Hn).
    rewrite (parent_missing tp ("image_" +:+ format_04d k +:+ ".png")
               (disk w3) Hn (slash_free_file_name "image_" k eq_refl) Hgone).
    reflexivity.
  - intros lf lfps lw lexc. split; [reflexivity|]. split; [reflexivity|].
    intros body lh lw' Hbody.
    exact (@with_transparent _LiveVideoEnterVisualizer.t Live_enter body
             (live_manager lf lfps) (live_handle lf lfps) lh lw lw'
             eq_refl eq_refl Hbody).
  - intros sf sw sexc. split; [reflexivity|]. split; [reflexivity|].
    intros body sh sw' Hbody.
    exact (@with_transparent _ShowEnterVisualizer.t Show_enter body
             (_ShowEnterVisualizer.__init__ sf)
             (_ShowEnteredVisualizer.__init__ sf) sh sw sw'
             eq_refl eq_refl Hbody).
Qed.

Lemma step_after_exit_is_unchecked_witness :
  ∃ h m1 w1 w3,
    _SaveToVidEnterVisualizer.__enter__
        (Fixtures.vid_enter, Fixtures.world0 true) = (Ok h, (m1, w1)) ∧
    _SaveToVidEnterVisualizer.__exit__ None (m1, w1) = (Ok tt, (m1, w3)) ∧
    tmp_ok (Fixtures.world0 true) ∧
    step (h, w3)
      = (Raise (FileNotFoundError "/tmp/tmpk3x9q_ab/image_0000.png"),
         (h, emit (Savefig "/tmp/tmpk3x9q_ab/image_0000.png" 50) w3)).
Proof.
  assert (tempfile.pick (tmpdir (Fixtures.world0 true))
            (tmp_names (Fixtures.world0 true)) (disk (Fixtures.world0 true))
          = Some ("/tmp/tmpk3x9q_ab", ["zz81mm0p"; "a0a0a0a0"])) as Hpick
    by (vm_compute; reflexivity).
  pose proof (enter_eq Fixtures.vid_enter (Fixtures.world0 true)) as Henter.
  rewrite Hpick in Henter.
  match type of Henter with
  | _ = (_, (?m1, ?w1)) =>
      destruct (exit_entered m1 (tempfile.mkTemporaryDirectory "/tmp/tmpk3x9q_ab")
                  w1 None eq_refl) as (w3 & Hexit & _);
        [vm_compute; reflexivity | vm_compute; reflexivity |]
  end.
  destruct (step_after_exit_is_unchecked _ _ _ _ _ _ _ _ _ _ None 0
              Henter Hexit (world0_tmp_ok true))
    as (Hstep & _).
  eexists _, _, _, w3. split; [exact Henter|]. split; [exact Hexit|].
  split; [exact (world0_tmp_ok true)|]. exact Hstep.
Defined.

End LiveAndLifecycle.

Section DirectoryExtras.
Import Text pathlib.

Local Abbreviation t := _SaveInDirEnteredVisualizer.t.
Local Abbreviation frame_path := _SaveInDirEnteredVisualizer.frame_path.
Local Abbreviation file_name := _SaveInDirEnteredVisualizer.file_name.
Local Abbreviation set_index := _SaveInDirEnteredVisualizer.set_index.
Local Abbreviation index := _SaveInDirEnteredVisualizer.index.
Local Abbreviation fig := _SaveInDirEnteredVisualizer.fig.
Local Abbreviation dpi := _SaveInDirEnteredVisualizer.dpi.

Lemma set_index_set_index (i j : nat) (s : t) :
  set_index i (set_index j s) = set_index i s.
Proof. reflexivity. Qed.

Lemma set_index_same (s : t) : set_index (index s) s = s.
Proof. by destruct s. Qed.

Lemma not_writable_step (s : t) (w : World) :
  ¬ writable w (frame_path s (index s)) →
  ∃ e, step (s, w)
         = (Raise e, (s, emit (Savefig (frame_path s (index s)) (dpi s)) w)).
Proof.
  intros Hnw.
  change (@step t SaveInDir_entered (s, w))
    with (_SaveInDirEnteredVisualizer.step (s, w)).
  rewrite step_eq. cbv zeta.
  destruct (os.parent_exists (disk w) (frame_path s (index s))) eqn:Hp;
    [|by eexists].
  simpl negb. cbv iota.
  destruct (bool_decide (frame_path s (index s) ∈ denied w)) eqn:Hd;
    [by eexists|].
  exfalso. apply Hnw. split; [done|]. by apply bool_decide_eq_false in Hd.
Qed.

Lemma writable_step (s : t) (w : World) :
  writable w (frame_path s (index s)) →
  step (s, w)
    = (Ok tt,
       (set_index (index s + 1) s,
        set_disk (write_file (frame_path s (index s))
                    (Png (picture (fig s) w) (dpi s)) (disk w))
          (emit (Savefig (frame_path s (index s)) (dpi s)) w))).
Proof.
  intros [Hp Hd].
  change (@step t SaveInDir_entered (s, w))
    with (_SaveInDirEnteredVisualizer.step (s, w)).
  rewrite step_eq. cbv zeta. rewrite Hp. simpl negb. cbv iota.
  by rewrite bool_decide_eq_false_2.
Qed.

(** X7. A run of calls stops at the first write the system refuses:
    the calls before it have written their frames, which stay on the
    disk; the refused frame is attempted once and not written; no later
    frame is attempted and no other file changes; the exception reaches
    the caller and the index stays at the refused frame. *)
Theorem steps_stop_at_first_failure (N k : nat) (s : t) (w : World) :
  (k < N)%nat →
  (∀ i, (index s <= i < index s + k)%nat → writable w (frame_path s i)) →
  ¬ writable w (frame_path s (index s + k)) →
  ∃ e w',
    steps N (s, w) = (Raise e, (set_index (index s + k) s, w')) ∧
    log w' = log w ++ map (fun i => Savefig (frame_path s i) (dpi s))
                          (seq (index s) (S k)) ∧
    (∀ i, (index s <= i < index s + k)%nat →
          files (disk w') !! frame_path s i
            = Some (Png (picture (fig s) w) (dpi s))) ∧
    (∀ p, (∀ i, (index s <= i < index s + k)%nat → p ≠ frame_path s i) →
          files (disk w') !! p = files (disk w) !! p) ∧
    files (disk w') !! frame_path s (index s + k)
      = files (disk w) !! frame_path s (index s + k).
Proof.
  intros HkN Hw Hnw.
  enough (∃ e w',
    steps N (s, w) = (Raise e, (set_index (index s + k) s, w')) ∧
    log w' = log w ++ map (fun i => Savefig (frame_path s i) (dpi s))
                          (seq (index s) (S k)) ∧
    (∀ i, (index s <= i < index s + k)%nat →
          files (disk w') !! frame_path s i
            = Some (Png (picture (fig s) w) (dpi s))) ∧
    (∀ p, (∀ i, (index s <= i < index s + k)%nat → p ≠ frame_path s i) →
          files (disk w') !! p = files (disk w) !! p))
    as (e & w' & H1 & H2 & H3 & H4).
  { exists e, w'. repeat (split; [done|]). apply H4.
    intros i Hi H%frame_path_inj. lia. }
  revert N s w HkN Hw Hnw. induction k as [|k IH]; intros N s w HkN Hw Hnw.
  - destruct N as [|N]; [lia|]. rewrite Nat.add_0_r in *.
    destruct (not_writable_step s w Hnw) as [e He].
    exists e, (emit (Savefig (frame_path s (index s)) (dpi s)) w).
    rewrite steps_S, He, set_index_same.
    split; [done|]. split; [done|]. split; [intros i Hi; lia | done].
  - destruct N as [|N]; [lia|].
    pose proof (writable_step s w (Hw (index s) ltac:(lia))) as Hstep.
    set (w1 := set_disk _ _) in Hstep.
    destruct (IH N (set_index (index s + 1) s) w1)
      as (e & w' & Hrun & Hlog & Hfiles & Hother).
    + lia.
    + intros i Hi. cbn in Hi. apply writable_after_write, Hw. lia.
    + cbn [_SaveInDirEnteredVisualizer.index
           _SaveInDirEnteredVisualizer.set_index].
      rewrite frame_path_set_index.
      intros [H1 H2]. apply Hnw.
      replace (index s + S k)%nat with (index s + 1 + k)%nat by lia.
      by split.
    + cbn [_SaveInDirEnteredVisualizer.index
           _SaveInDirEnteredVisualizer.set_index
           _SaveInDirEnteredVisualizer.fig
           _SaveInDirEnteredVisualizer.dpi] in *.
      rewrite set_index_set_index in Hrun.
      replace (index s + 1 + k)%nat with (index s + S k)%nat in * by lia.
      exists e, w'. rewrite steps_S, Hstep.
      split; [exact Hrun|]. split; [|split].
      * rewrite Hlog. subst w1. cbn [log emit set_disk].
        rewrite <- app_assoc. f_equal. cbn [seq map]. f_equal.
        by rewrite Nat.add_1_r.
      * intros i Hi. destruct (decide (i = index s)) as [->|Hne].
        -- rewrite Hother.
           ++ subst w1. cbn [files disk set_disk write_file].
              apply lookup_insert_eq.
           ++ intros i Hi' H. rewrite frame_path_set_index in H.
              apply frame_path_inj in H. lia.
        -- rewrite <- (frame_path_set_index s (index s + 1) i).
           rewrite Hfiles by lia. done.
      * intros p Hp. rewrite Hother.
        -- subst w1. cbn [files disk set_disk write_file].
           apply lookup_insert_ne. intros <-. by apply (Hp (index s)); [lia|].
        -- intros i Hi. rewrite frame_path_set_index. apply Hp. lia.
Qed.

Lemma steps_stop_at_first_failure_witness :
  (∀ i, (0 <= i < 0 + 2)%nat →
        writable MoreFixtures.world_denied (frame_path Fixtures.dir_handle i)) ∧
  ¬ writable MoreFixtures.world_denied (frame_path Fixtures.dir_handle 2) ∧
  ∃ w',
    steps 5 (Fixtures.dir_handle, MoreFixtures.world_denied)
      = (Raise (PermissionError "frames/image0002.png"),
         (set_index 2 Fixtures.dir_handle, w')) ∧
    log w' = [Savefig "frames/image0000.png" 400;
              Savefig "frames/image0001.png" 400;
              Savefig "frames/image0002.png" 400] ∧
    files (disk w') !! "frames/image0002.png" = None.
Proof.
  assert (∀ i, (0 <= i < 0 + 2)%nat →
               writable MoreFixtures.world_denied
                 (frame_path Fixtures.dir_handle i)) as Hw.
  { intros i Hi. destruct i as [|[|i]]; [| |lia].
    - split; [vm_compute; reflexivity|].
      unfold MoreFixtures.world_denied. cbn [denied].
      intros H%elem_of_singleton. vm_compute in H. discriminate H.
    - split; [vm_compute; reflexivity|].
      unfold MoreFixtures.world_denied. cbn [denied].
      intros H%elem_of_singleton. vm_compute in H. discriminate H. }
  assert (¬ writable MoreFixtures.world_denied
            (frame_path Fixtures.dir_handle 2)) as Hnw.
  { intros [_ H]. apply H. unfold MoreFixtures.world_denied. cbn [denied].
    apply elem_of_singleton. vm_compute. reflexivity. }
  split; [exact Hw|]. split; [exact Hnw|].
  destruct (steps_stop_at_first_failure 5 2 Fixtures.dir_handle
              MoreFixtures.world_denied ltac:(lia) Hw Hnw)
    as (e & w' & Hrun & Hlog & _ & _ & Hlast).
  assert (e = PermissionError "frames/image0002.png") as ->.
  { apply (f_equal fst) in Hrun. vm_compute in Hrun. congruence. }
  exists w'. split; [exact Hrun|]. split; [exact Hlog|]. exact Hlast.
Defined.

End DirectoryExtras.

Section RecordLoop.
Import Text pathlib.

Local Abbreviation t := _SaveInDirEnteredVisualizer.t.
Local Abbreviation frame_path := _SaveInDirEnteredVisualizer.frame_path.
Local Abbreviation file_name := _SaveInDirEnteredVisualizer.file_name.
Local Abbreviation set_index := _SaveInDirEnteredVisualizer.set_index.
Local Abbreviation index := _SaveInDirEnteredVisualizer.index.
Local Abbreviation fig := _SaveInDirEnteredVisualizer.fig.
Local Abbreviation dpi := _SaveInDirEnteredVisualizer.dpi.

Lemma record_cons {T} `{EnteredVisualizer T} (f : Figure) (p : nat)
    (rest : list nat) (s : T) (w : World) :
  record f (p :: rest) (s, w) =
    match step (s, set_canvas (<[f := p]> (canvas w)) w) with
    | (Ok _, st1) => record f rest st1
    | (Raise e, st1) => (Raise e, st1)
    | (Hang, st1) => (Hang, st1)
    end.
Proof. reflexivity. Qed.

Lemma writable_after_draw (w : World) (f : Figure) (p : nat) (q : string) :
  writable w q → writable (set_canvas (<[f := p]> (canvas w)) w) q.
Proof. intros [H1 H2]. by split. Qed.

Lemma picture_after_draw (w : World) (f : Figure) (p : nat) :
  picture f (set_canvas (<[f := p]> (canvas w)) w) = p.
Proof. unfold picture. cbn [canvas set_canvas]. by rewrite lookup_insert_eq. Qed.

(** The loop on a handle in any state: redrawing the handle's own
    figure before every call. *)
Lemma record_ok (pics : list nat) (s : t) (w : World) :
  (∀ i, (index s <= i < index s + length pics)%nat →
        writable w (frame_path s i)) →
  ∃ w',
    record (fig s) pics (s, w)
      = (Ok tt, (set_index (index s + length pics) s, w')) ∧
    log w' = log w ++ map (fun i => Savefig (frame_path s i) (dpi s))
                          (seq (index s) (length pics)) ∧
    (∀ j pic, pics !! j = Some pic →
              files (disk w') !! frame_path s (index s + j)
                = Some (Png pic (dpi s))) ∧
    (∀ p, (∀ i, (index s <= i < index s + length pics)%nat →
                p ≠ frame_path s i) →
          files (disk w') !! p = files (disk w) !! p) ∧
    (∀ q, writable w q → writable w' q).
Proof.
  revert s w. induction pics as [|pic pics IH]; intros s w Hw.
  - exists w. cbn [length]. rewrite Nat.add_0_r, set_index_same.
    split; [done|]. split; [by rewrite app_nil_r|].
    split; [intros j pic Hj; by rewrite lookup_nil in Hj|]. by split.
  - set (wd := set_canvas (<[fig s := pic]> (canvas w)) w).
    assert (writable wd (frame_path s (index s))) as Hw0.
    { apply writable_after_draw, Hw. cbn [length]. lia. }
    pose proof (writable_step s wd Hw0) as Hstep.
    assert (picture (fig s) wd = pic) as Hpic by apply picture_after_draw.
    rewrite Hpic in Hstep.
    set (w1 := set_disk _ _) in Hstep.
    destruct (IH (set_index (index s + 1) s) w1)
      as (w' & Hrun & Hlog & Hpics & Hother & Hkeep).
    { intros i Hi. cbn in Hi. apply writable_after_write.
      apply writable_after_draw, Hw. cbn [length]. lia. }
    cbn [_SaveInDirEnteredVisualizer.index
         _SaveInDirEnteredVisualizer.set_index
         _SaveInDirEnteredVisualizer.fig
         _SaveInDirEnteredVisualizer.dpi] in *.
    rewrite set_index_set_index in Hrun.
    exists w'. rewrite record_cons. fold wd. rewrite Hstep.
    split.
    { rewrite Hrun. do 2 f_equal. cbn [length]. f_equal. lia. }
    split; [|split; [|split]].
    + rewrite Hlog. subst w1 wd. cbn [log emit set_disk set_canvas].
      rewrite <- app_assoc. f_equal. cbn [length seq map]. f_equal.
      by rewrite Nat.add_1_r.
    + intros j p Hj. destruct j as [|j].
      * injection Hj as <-. rewrite Nat.add_0_r, Hother.
        -- subst w1. cbn [files disk set_disk write_file].
           apply lookup_insert_eq.
        -- intros i Hi H. rewrite frame_path_set_index in H.
           apply frame_path_inj in H. lia.
      * replace (index s + S j)%nat with (index s + 1 + j)%nat by lia.
        rewrite <- (frame_path_set_index s (index s + 1)).
        by apply Hpics.
    + intros p Hp. rewrite Hother.
      * subst w1 wd. cbn [files disk set_disk set_canvas write_file].
        apply lookup_insert_ne. intros <-.
        apply (Hp (index s)); [cbn [length]; lia | done].
      * intros i Hi. rewrite frame_path_set_index. apply Hp.
        cbn [length]. lia.
    + intros q Hq. apply Hkeep. subst w1.
      by apply writable_after_write, writable_after_draw.
Qed.

(** X8. The loop "redraw, then [step]" on a new handle stores every
    picture under the name of its position: when the system accepts
    the writes, the loop returns, the file of index [j] holds the
    [j]-th picture drawn at the handle's resolution, every other file
    of the disk is as before, and the index ends at the number of
    pictures. *)
Theorem record_stores_each_picture
    (pics : list nat) (f : Figure) (sd : Path) (pfx : string) (d : Z)
    (w : World) :
  (∀ i, (i < length pics)%nat →
        writable w (frame_path
                      (_SaveInDirEnteredVisualizer.__init__ f sd pfx d) i)) →
  ∃ s' w',
    record f pics (_SaveInDirEnteredVisualizer.__init__ f sd pfx d, w)
      = (Ok tt, (s', w')) ∧
    index s' = length pics ∧
    (∀ j pic, pics !! j = Some pic →
              files (disk w') !! pathlib.str (truediv sd (file_name pfx j))
                = Some (Png pic d)) ∧
    (∀ p, (∀ i, (i < length pics)%nat →
                p ≠ pathlib.str (truediv sd (file_name pfx i))) →
          files (disk w') !! p = files (disk w) !! p).
Proof.
  intros Hw.
  destruct (record_ok pics (_SaveInDirEnteredVisualizer.__init__ f sd pfx d) w)
    as (w' & Hrun & _ & Hpics & Hother & _).
  { intros i Hi. apply Hw. cbn in Hi. lia. }
  eexists _, w'. split; [exact Hrun|]. split; [done|]. split.
  - intros j pic Hj. exact (Hpics j pic Hj).
  - intros p Hp. apply Hother. intros i Hi. apply Hp. cbn in Hi. lia.
Qed.

Lemma record_stores_each_picture_witness :
  (∀ i, (i < length [10; 20; 30]%nat)%nat →
        writable (Fixtures.world0 true) (frame_path Fixtures.dir_handle i)) ∧
  ∃ s' w',
    record Fixtures.fig0 [10; 20; 30]%nat
        (Fixtures.dir_handle, Fixtures.world0 true) = (Ok tt, (s', w')) ∧
    files (disk w') !! "frames/image0001.png" = Some (Png 20 400).
Proof.
  assert (∀ i, (i < length [10; 20; 30]%nat)%nat →
               writable (Fixtures.world0 true)
                 (frame_path Fixtures.dir_handle i)) as Hw.
  { intros i Hi. split; [|apply not_elem_of_empty].
    destruct i as [|[|[|i]]]; [vm_compute; reflexivity ..|cbn in Hi; lia]. }
  split; [exact Hw|].
  destruct (record_stores_each_picture [10; 20; 30]%nat Fixtures.fig0
              (of_str "frames") "image" 400 (Fixtures.world0 true) Hw)
    as (s' & w' & Hrun & _ & Hpics & _).
  exists s', w'. split; [exact Hrun|].
  exact (Hpics 1%nat 20%nat eq_refl).
Defined.

(** X9. A new handle always starts at index 0.  Run on a directory that
    holds the frames of an earlier, longer session, the loop replaces
    the frames of its own indices and leaves the later frames of the
    earlier session in place. *)
Theorem new_handle_overwrites_from_zero
    (old new : list nat) (f : Figure) (sd : Path) (pfx : string) (d : Z)
    (w : World) :
  (length new <= length old)%nat →
  (∀ i, (i < length old)%nat →
        writable w (frame_path
                      (_SaveInDirEnteredVisualizer.__init__ f sd pfx d) i)) →
  ∃ s1 w1 s2 w2,
    record f old (_SaveInDirEnteredVisualizer.__init__ f sd pfx d, w)
      = (Ok tt, (s1, w1)) ∧
    record f new (_SaveInDirEnteredVisualizer.__init__ f sd pfx d, w1)
      = (Ok tt, (s2, w2)) ∧
    index s2 = length new ∧
    (∀ j pic, new !! j = Some pic →
              files (disk w2) !! pathlib.str (truediv sd (file_name pfx j))
                = Some (Png pic d)) ∧
    (∀ j pic, (length new <= j)%nat → old !! j = Some pic →
              files (disk w2) !! pathlib.str (truediv sd (file_name pfx j))
                = Some (Png pic d)).
Proof.
  intros Hlen Hw.
  set (s0 := _SaveInDirEnteredVisualizer.__init__ f sd pfx d).
  destruct (record_ok old s0 w) as (w1 & Hrun1 & _ & Hold & _ & Hkeep).
  { intros i Hi. apply Hw. cbn in Hi. lia. }
  destruct (record_ok new s0 w1) as (w2 & Hrun2 & _ & Hnew & Hother2 & _).
  { intros i Hi. apply Hkeep, Hw. cbn in Hi. lia. }
  eexists _, w1, _, w2. split; [exact Hrun1|]. split; [exact Hrun2|].
  split; [done|]. split.
  - intros j pic Hj. exact (Hnew j pic Hj).
  - intros j pic Hj Hpic.
    change (pathlib.str (truediv sd (file_name pfx j))) with (frame_path s0 j).
    rewrite Hother2.
    + exact (Hold j pic Hpic).
    + intros i Hi H%frame_path_inj. cbn in Hi. lia.
Qed.

Lemma new_handle_overwrites_from_zero_witness :
  (length [70; 80]%nat <= length [10; 20; 30]%nat)%nat ∧
  ∃ s1 w1 s2 w2,
    record Fixtures.fig0 [10; 20; 30]%nat
        (Fixtures.dir_handle, Fixtures.world0 true) = (Ok tt, (s1, w1)) ∧
    record Fixtures.fig0 [70; 80]%nat (Fixtures.dir_handle, w1)
      = (Ok tt, (s2, w2)) ∧
    files (disk w2) !! "frames/image0000.png" = Some (Png 70 400) ∧
    files (disk w2) !! "frames/image0002.png" = Some (Png 30 400).
Proof.
  assert (length [70; 80]%nat <= length [10; 20; 30]%nat)%nat as Hlen
    by (cbn; lia).
  assert (∀ i, (i < length [10; 20; 30]%nat)%nat →
               writable (Fixtures.world0 true)
                 (_SaveInDirEnteredVisualizer.frame_path Fixtures.dir_handle i))
    as Hw.
  { intros i Hi. split; [|apply not_elem_of_empty].
    destruct i as [|[|[|i]]]; [vm_compute; reflexivity ..|cbn in Hi; lia]. }
  split; [exact Hlen|].
  destruct (new_handle_overwrites_from_zero [10; 20; 30]%nat [70; 80]%nat
              Fixtures.fig0 (of_str "frames") "image" 400
              (Fixtures.world0 true) Hlen Hw)
    as (s1 & w1 & s2 & w2 & Hrun1 & Hrun2 & _ & Hnew & Hold).
  exists s1, w1, s2, w2. split; [exact Hrun1|]. split; [exact Hrun2|].
  split.
  - exact (Hnew 0%nat 70%nat eq_refl).
  - exact (Hold 2%nat 30%nat ltac:(cbn; lia) eq_refl).
Defined.

End RecordLoop.

Section BeyondFourDigits.
Import Text pathlib.

Local Abbreviation t := _SaveInDirEnteredVisualizer.t.
Local Abbreviation frame_path := _SaveInDirEnteredVisualizer.frame_path.
Local Abbreviation file_name := _SaveInDirEnteredVisualizer.file_name.
Local Abbreviation prefix := _SaveInDirEnteredVisualizer.prefix.

Lemma formats_all_elim (P : string → bool) (lo n i : nat) :
  Checks.formats_all P lo n = true →
  (lo <= i)%nat → (i < lo + n)%nat → P (format_04d i) = true.
Proof.
  unfold Checks.formats_all. rewrite forallb_forall. intros H Hlo Hhi.
  apply (H i), in_seq. by split.
Qed.

Lemma compare_by_head (c : ascii) (a b x y : string) :
  Checks.head_is c a = true → Checks.head_above c b = true →
  String.compare (a +:+ x) (b +:+ y) = Lt.
Proof.
  destruct a as [|a0 a]; [done|]. destruct b as [|b0 b]; [done|].
  intros Ha Hb. simpl in Ha, Hb.
  apply Ascii.eqb_eq in Ha as ->. apply N.ltb_lt, N.compare_lt_iff in Hb.
  rewrite !append_cons. simpl. unfold Ascii.compare. by rewrite Hb.
Qed.

Lemma five_digits_start_with_one :
  Checks.formats_all (Checks.head_is "1") 10000 10000 = true.
Proof. vm_compute. reflexivity. Qed.

Lemma four_digits_from_2000_start_above_one :
  Checks.formats_all (Checks.head_above "1") 2000 8000 = true.
Proof. vm_compute. reflexivity. Qed.

(** X6. The index is never cut to four digits, and past 9999 the names
    no longer sort in the order of capture: every frame of an index
    from 10000 to 19999 comes, in lexicographic order, before every
    frame of an index from 2000 to 9999, although it was written
    later.  This holds for the names and for the whole paths, whatever
    the directory and the prefix. *)
Theorem names_past_9999_sort_early (s : t) (i j : nat) :
  (2000 <= i)%nat → (i <= 9999)%nat →
  (10000 <= j)%nat → (j <= 19999)%nat →
  read_nat (format_04d j) = Some j ∧
  str_lt (file_name (prefix s) j) (file_name (prefix s) i) ∧
  str_lt (frame_path s j) (frame_path s i).
Proof.
  intros Hi1 Hi2 Hj1 Hj2.
  assert (Checks.head_above "1" (format_04d i) = true) as Hi.
  { apply (formats_all_elim _ 2000 8000 i
             four_digits_from_2000_start_above_one Hi1).
    change (i < S 9999)%nat. by apply Nat.lt_succ_r. }
  assert (Checks.head_is "1" (format_04d j) = true) as Hj.
  { apply (formats_all_elim _ 10000 10000 j
             five_digits_start_with_one Hj1).
    change (j < S 19999)%nat. by apply Nat.lt_succ_r. }
  split; [apply read_nat_format_04d|]. split.
  - unfold str_lt. rewrite !file_name_tail, compare_append_head.
    by apply (compare_by_head "1").
  - destruct (frame_path_shape s) as [base Hb].
    unfold str_lt. rewrite !Hb, compare_append_head.
    by apply (compare_by_head "1").
Qed.

Lemma names_past_9999_sort_early_witness :
  (2000 <= 9999)%nat ∧ (10000 <= 19999)%nat ∧
  frame_path Fixtures.dir_handle 10000 = "frames/image10000.png" ∧
  str_lt (frame_path Fixtures.dir_handle 10000)
         (frame_path Fixtures.dir_handle 9999).
Proof.
  assert (2000 <= 9999)%nat as H1 by (apply Nat.leb_le; vm_compute; reflexivity).
  assert (10000 <= 19999)%nat as H2 by (apply Nat.leb_le; vm_compute; reflexivity).
  split; [exact H1|]. split; [exact H2|].
  split; [vm_compute; reflexivity|].
  exact (proj2 (proj2 (names_past_9999_sort_early Fixtures.dir_handle
                         9999 10000 H1 (Nat.le_refl _) (Nat.le_refl _) H2))).
Defined.

End BeyondFourDigits.

Section WholeSessions.
Import Text pathlib.

Local Abbreviation vid := _SaveToVidEnterVisualizer.t.
Local Abbreviation handle := _SaveInDirEnteredVisualizer.t.
Local Abbreviation frame_path := _SaveInDirEnteredVisualizer.frame_path.
Local Abbreviation set_index := _SaveInDirEnteredVisualizer.set_index.
Local Abbreviation temp_path := _SaveToVidEnterVisualizer.temp_path.
Local Abbreviation ffmpeg_command := _SaveToVidEnterVisualizer.ffmpeg_command.
Local Abbreviation mv_command := _SaveToVidEnterVisualizer.mv_command.

(** ** The [with] statement, case by case *)


Lemma with_raise {T} `{EnterVisualizer T} (body : Method Entered unit)
    (m m1 m3 : T) (h h' : Entered) (w w1 w2 w3 : World) (e : Exn) :
  __enter__ (m, w) = (Ok h, (m1, w1)) →
  body (h, w1) = (Raise e, (h', w2)) →
  __exit__ (Some e) (m1, w2) = (Ok tt, (m3, w3)) →
  with_ body (m, w) = (Raise e, (m3, w3)).
Proof. intros He Hb Hx. unfold with_. by rewrite He, Hb, Hx. Qed.

Lemma with_enter_raise {T} `{EnterVisualizer T} (body : Method Entered unit)
    (m : T) (w : World) (e : Exn) (st : T * World) :
  __enter__ (m, w) = (Raise e, st) → with_ body (m, w) = (Raise e, st).
Proof. intros He. unfold with_. by rewrite He. Qed.

Lemma session_video (v : VideoVisualizer.t) (f : Figure)
    (body : Method handle unit) (w : World) :
  session (V:=VideoVisualizer.t) f body (v, w) =
    match with_ (T:=vid) body
            (_SaveToVidEnterVisualizer.__init__ f
               (VideoVisualizer.video_path v) (VideoVisualizer.fps v)
               (VideoVisualizer.dpi v), w) with
    | (r, (_, w2)) => (r, (v, w2))
    end.
Proof. reflexivity. Qed.

Lemma session_video_result (v : VideoVisualizer.t) (f : Figure)
    (body : Method handle unit) (w w2 : World) (m' : vid)
    (r : Res (option handle)) :
  with_ (T:=vid) body
    (_SaveToVidEnterVisualizer.__init__ f (VideoVisualizer.video_path v)
       (VideoVisualizer.fps v) (VideoVisualizer.dpi v), w)
    = (r, (m', w2)) →
  session (V:=VideoVisualizer.t) f body (v, w) = (r, (v, w2)).
Proof. intros H. by rewrite session_video, H. Qed.






(** X3. When no scratch directory can be had, the session never
    starts: the error of [mkdtemp] reaches the caller, the block is not
    run, no command is run and the disk is untouched.  The manager is
    left without a directory, so that leaving it by hand raises
    [RuntimeError]. *)
Theorem failed_scratch_acquisition_skips_block
    (v : VideoVisualizer.t) (f : Figure) (body : Method handle unit)
    (w : World) :
  tempfile.pick (tmpdir w) (tmp_names w) (disk w) = None →
  session (V:=VideoVisualizer.t) f body (v, w)
    = (Raise (FileExistsError "No usable temporary directory name found"),
       (v, set_tmp_names [] w)) ∧
  log (set_tmp_names [] w) = log w ∧
  disk (set_tmp_names [] w) = disk w ∧
  (∀ (m' : vid) (st : World),
      _SaveToVidEnterVisualizer.__enter__
          (_SaveToVidEnterVisualizer.__init__ f (VideoVisualizer.video_path v)
             (VideoVisualizer.fps v) (VideoVisualizer.dpi v), w)
        = (Raise (FileExistsError "No usable temporary directory name found"),
           (m', st)) →
      ∀ (exc : ExcInfo) (w' : World),
        _SaveToVidEnterVisualizer.__exit__ exc (m', w')
          = (Raise (RuntimeError "Temporary directory context manager is None"),
             (m', w'))).
Proof.
  intros Hpick.
  set (m0 := _SaveToVidEnterVisualizer.__init__ f
               (VideoVisualizer.video_path v) (VideoVisualizer.fps v)
               (VideoVisualizer.dpi v)).
  pose proof (enter_eq m0 w) as Henter. rewrite Hpick in Henter.
  split; [|split; [done|split; [done|]]].
  - apply (session_video_result v f body w _ m0).
    exact (@with_enter_raise vid SaveToVid_enter body m0 w _ _ Henter).
  - intros m' st Hm' exc w'. rewrite Henter in Hm'.
    injection Hm' as <- _. by apply exit_not_entered.
Qed.

Lemma failed_scratch_acquisition_skips_block_witness :
  tempfile.pick (tmpdir MoreFixtures.world_no_names)
    (tmp_names MoreFixtures.world_no_names)
    (disk MoreFixtures.world_no_names) = None ∧
  session (V:=VideoVisualizer.t) Fixtures.fig0 (steps 3)
      (Fixtures.video, MoreFixtures.world_no_names)
    = (Raise (FileExistsError "No usable temporary directory name found"),
       (Fixtures.video, set_tmp_names [] MoreFixtures.world_no_names)).
Proof.
  assert (tempfile.pick (tmpdir MoreFixtures.world_no_names)
            (tmp_names MoreFixtures.world_no_names)
            (disk MoreFixtures.world_no_names) = None) as Hpick
    by reflexivity.
  split; [exact Hpick|].
  exact (proj1 (failed_scratch_acquisition_skips_block Fixtures.video
                  Fixtures.fig0 (steps 3) MoreFixtures.world_no_names Hpick)).
Defined.

End WholeSessions.

Section PreviewSessions.

Local Abbreviation live_handle := _LiveVideoEnteredVisualizer.t.
Local Abbreviation live_manager := _LiveVideoEnterVisualizer.t.

Lemma session_live (v : LiveVideoVisualizer.t) (f : Figure)
    (body : Method live_handle unit) (w : World) :
  session (V:=LiveVideoVisualizer.t) f body (v, w) =
    match with_ (T:=live_manager) body
            (_LiveVideoEnterVisualizer.__init__ f (LiveVideoVisualizer.fps v),
             w) with
    | (r, (_, w2)) => (r, (v, w2))
    end.
Proof. reflexivity. Qed.

Lemma session_live_result (v : LiveVideoVisualizer.t) (f : Figure)
    (body : Method live_handle unit) (w w2 : World) (m' : live_manager)
    (r : Res (option live_handle)) :
  with_ (T:=live_manager) body
    (_LiveVideoEnterVisualizer.__init__ f (LiveVideoVisualizer.fps v), w)
    = (r, (m', w2)) →
  session (V:=LiveVideoVisualizer.t) f body (v, w) = (r, (v, w2)).
Proof. intros H. by rewrite session_live, H. Qed.

Lemma live_step_zero_eq (f : Figure) (fps : Q) (w : World) :
  (fps == 0)%Q →
  step (_LiveVideoEnteredVisualizer.__init__ f fps, w)
    = (Raise ZeroDivisionError, (_LiveVideoEnteredVisualizer.__init__ f fps, w)).
Proof.
  intros Hfps%Qeq_bool_iff.
  cbv beta delta [step Live_entered _LiveVideoEnteredVisualizer.step
                  mbind M_bind get_self io builtins.one_over
                  matplotlib.pause raise]; simpl.
  by rewrite Hfps.
Qed.

(** X4. A live recorder accepts a frame rate of zero: building it and
    entering the session raise nothing, and a session without any
    [step] ends normally.  The first [step] then fails on the division
    [1/fps]: [ZeroDivisionError] leaves the [with] statement, no pause
    has been made and the world is unchanged. *)
Theorem live_zero_rate_fails_at_first_step
    (f : Figure) (fps : Q) (K : nat) (w : World) :
  (fps == 0)%Q →
  session f (steps 0) (LiveVideoVisualizer.__init__ fps, w)
    = (Ok (Some (_LiveVideoEnteredVisualizer.__init__ f fps)),
       (LiveVideoVisualizer.__init__ fps, w)) ∧
  session f (steps (S K)) (LiveVideoVisualizer.__init__ fps, w)
    = (Raise ZeroDivisionError, (LiveVideoVisualizer.__init__ fps, w)).
Proof.
  intros Hfps. split; [reflexivity|].
  apply (session_live_result _ f (steps (S K)) w w
           (_LiveVideoEnterVisualizer.__init__ f fps)).
  apply (@with_raise live_manager Live_enter (steps (S K))
           (_LiveVideoEnterVisualizer.__init__ f fps)
           (_LiveVideoEnterVisualizer.__init__ f fps)
           (_LiveVideoEnterVisualizer.__init__ f fps)
           (_LiveVideoEnteredVisualizer.__init__ f fps)
           (_LiveVideoEnteredVisualizer.__init__ f fps) w w w w
           ZeroDivisionError); [reflexivity | | reflexivity].
  rewrite steps_S.
  change (@step (@Entered live_manager Live_enter) _
            (_LiveVideoEnteredVisualizer.__init__ f fps, w))
    with (step (_LiveVideoEnteredVisualizer.__init__ f fps, w)).
  by rewrite (live_step_zero_eq f fps w Hfps).
Qed.

Lemma live_zero_rate_fails_at_first_step_witness :
  (0 == 0)%Q ∧
  session (V:=LiveVideoVisualizer.t) Fixtures.fig0 (steps 3)
      (LiveVideoVisualizer.__init__ 0, Fixtures.world0 true)
    = (Raise ZeroDivisionError,
       (LiveVideoVisualizer.__init__ 0, Fixtures.world0 true)).
Proof.
  assert (0 == 0)%Q as H by reflexivity.
  split; [exact H|].
  exact (proj2 (live_zero_rate_fails_at_first_step Fixtures.fig0 0 2
                  (Fixtures.world0 true) H)).
Defined.

End PreviewSessions.
